(** * Schema-type cascade of [infer-utilities.types.ts]

    The source file is a set of TypeScript type-level functions.  Each one
    becomes a Rocq function over the description it inspects:

    - a conditional type [X extends infer V extends T ? A : B] becomes a
      [match] on whether the (optional) component [X] is there and has the
      shape [T];
    - a constraint [K extends keyof M] on a type parameter becomes an explicit
      check; an instantiation that violates it is rejected by the type
      checker, which the model records as an [Err] result;
    - a type parameter with a default ([DefaultSchemaType = typeof
      ApiTypeScriptSchema]) becomes an [option] argument, [None] standing for
      an omitted argument. *)

From stdpp Require Import base option gmap strings.

(** ** Rejected instantiations *)

Inductive Error : Type :=
| UnknownEndpoint   (* [Endpoint] is not a key of [Api["endpoints"]] *)
| UnknownEntry.     (* [EntryParam] is not a key of the entry collection *)

Inductive Result (A : Type) : Type :=
| Ok (a : A)
| Err (e : Error).
Arguments Ok {A} a.
Arguments Err {A} e.

#[global] Instance Result_ret : MRet Result := fun _ a => Ok a.
#[global] Instance Result_bind : MBind Result := fun _ _ f r =>
  match r with
  | Ok a => f a
  | Err e => Err e
  end.

(** A constraint on a type parameter: satisfied, or the instantiation is
    rejected with [e]. *)
Definition constraint (b : bool) (e : Error) : Result unit :=
  if b then Ok tt else Err e.

(** [K extends keyof M] for an object type [M] used as a mapping. *)
Definition extends_keyof {V : Type} (K : string) (M : gmap string V) : bool :=
  bool_decide (is_Some (M !! K)).

(** ** Data model ([api-spec.types])

    The declarations of [./api-spec.types] are imported by the source but are
    not part of it; the records below follow section 3 of the specification. *)

(** Modelled from the spec: [ApiEntry], the name-keyed entry kinds of an
    endpoint (path, query, header, cookie, response). *)
Inductive ApiEntry : Type := params | query | headers | cookies | responses.

Section Description.
(** [SchemaType] is the imported type of schema-type declarations and
    [Schema] the opaque, provider-specific schema values. *)
Variables (SchemaType Schema : Type).

(** Modelled from the spec: [ApiBaseMetadata], metadata with an optional
    [schemaType] field. *)
Record ApiBaseMetadata : Type := { schemaType : option SchemaType }.

(** Modelled from the spec: [ApiParameter], a [schema] and optional
    [metadata]. *)
Record ApiParameter : Type := {
  param_metadata : option ApiBaseMetadata;
  schema : Schema;
}.

(** The types found at a location of a description, classified the way the
    source inspects them with [extends ApiParameter]. *)
Inductive TsType : Type :=
| TsUndefined                    (* an optional property that is absent *)
| TsOpaque (s : Schema)          (* a type that does not extend [ApiParameter] *)
| TsParameter (p : ApiParameter). (* a type that extends [ApiParameter] *)

(** Modelled from the spec: [ApiEndpoint], optional metadata, five optional
    name-keyed collections and an optional body ([TsUndefined] when no body
    is declared). *)
Record ApiEndpoint : Type := {
  ep_metadata : option ApiBaseMetadata;
  ep_params : option (gmap string TsType);
  ep_query : option (gmap string TsType);
  ep_headers : option (gmap string TsType);
  ep_cookies : option (gmap string TsType);
  ep_responses : option (gmap string TsType);
  ep_body : TsType;
}.

(** Modelled from the spec: [ApiSpec], optional metadata and a mapping from
    endpoint names to endpoints. *)
Record ApiSpec : Type := {
  api_metadata : option ApiBaseMetadata;
  endpoints : gmap string ApiEndpoint;
}.
End Description.

Arguments schemaType {SchemaType} _.
Arguments Build_ApiBaseMetadata {SchemaType} _.
Arguments param_metadata {SchemaType Schema} _.
Arguments schema {SchemaType Schema} _.
Arguments Build_ApiParameter {SchemaType Schema} _ _.
Arguments TsUndefined {SchemaType Schema}.
Arguments TsOpaque {SchemaType Schema} s.
Arguments TsParameter {SchemaType Schema} p.
Arguments ep_metadata {SchemaType Schema} _.
Arguments ep_params {SchemaType Schema} _.
Arguments ep_query {SchemaType Schema} _.
Arguments ep_headers {SchemaType Schema} _.
Arguments ep_cookies {SchemaType Schema} _.
Arguments ep_responses {SchemaType Schema} _.
Arguments ep_body {SchemaType Schema} _.
Arguments Build_ApiEndpoint {SchemaType Schema} _ _ _ _ _ _ _.
Arguments api_metadata {SchemaType Schema} _.
Arguments endpoints {SchemaType Schema} _.
Arguments Build_ApiSpec {SchemaType Schema} _ _.

(** Modelled from the spec: [ApiDataParameter], "same shape as Parameter, used
    specifically for request/response bodies". *)
Abbreviation ApiDataParameter := ApiParameter.

Section Cascade.
Context {SchemaType Schema : Type}.

(** The constant [ApiTypeScriptSchema] of [./schema-type-ts], the default of
    every [DefaultSchemaType] parameter. *)
Variable ApiTypeScriptSchema : SchemaType.

#[local] Abbreviation ApiSpec := (ApiSpec SchemaType Schema).
#[local] Abbreviation ApiEndpoint := (ApiEndpoint SchemaType Schema).
#[local] Abbreviation TsType := (TsType SchemaType Schema).

(** ** Indexed access ([basic-utilities.types]) *)

(** [E[Entry]] *)
Definition entry_collection (E : ApiEndpoint) (Entry : ApiEntry)
  : option (gmap string TsType) :=
  match Entry with
  | params => ep_params E
  | query => ep_query E
  | headers => ep_headers E
  | cookies => ep_cookies E
  | responses => ep_responses E
  end.

(** [EntryParam extends keyof E[Entry]]: an absent collection has no keys. *)
Definition extends_keyof_entry (EntryParam : string) (E : ApiEndpoint)
    (Entry : ApiEntry) : bool :=
  match entry_collection E Entry with
  | Some M => extends_keyof EntryParam M
  | None => false
  end.

(** [E[Entry][EntryParam]] *)
Definition entry_param (E : ApiEndpoint) (Entry : ApiEntry)
    (EntryParam : string) : TsType :=
  match entry_collection E Entry with
  | Some M => default TsUndefined (M !! EntryParam)
  | None => TsUndefined
  end.

(** Modelled from the spec: [ApiGetEndpoint<Api, Endpoint>] of
    [./basic-utilities.types], the endpoint bound to [Endpoint] in
    [Api["endpoints"]]; an unknown name is rejected. *)
Definition ApiGetEndpoint (Api : ApiSpec) (Endpoint : string)
  : Result ApiEndpoint :=
  match endpoints Api !! Endpoint with
  | Some E => Ok E
  | None => Err UnknownEndpoint
  end.

(** Modelled from the spec: [ApiGetEndpointBody<Api, Endpoint>] of
    [./basic-utilities.types], the body of the endpoint, "a single
    DataParameter or absent". *)
Definition ApiGetEndpointBody (Api : ApiSpec) (Endpoint : string)
  : Result TsType :=
  E ← ApiGetEndpoint Api Endpoint;
  Ok (ep_body E).

(** A type parameter that has a computed default ([Computed... = ...]): the
    caller's argument when there is one, the computation otherwise. *)
Definition computed {A : Type} (given : option A) (dflt : Result A) : Result A :=
  match given with
  | Some a => Ok a
  | None => dflt
  end.

(** ** The cascade (lines 27-108) *)

Definition ApiGetSchemaType (Api : ApiSpec)
    (DefaultSchemaType : option SchemaType) : SchemaType :=
  let DefaultSchemaType := default ApiTypeScriptSchema DefaultSchemaType in
  match api_metadata Api with
  | Some Meta =>
      match schemaType Meta with
      | Some Ty => Ty
      | None => DefaultSchemaType
      end
  | None => DefaultSchemaType
  end.

Definition ApiGetEndpointSchemaType (Api : ApiSpec) (Endpoint : string)
    (DefaultSchemaType : option SchemaType)
    (ComputedEndpoint : option ApiEndpoint) : Result SchemaType :=
  let DefaultSchemaType := default ApiTypeScriptSchema DefaultSchemaType in
  _ ← constraint (extends_keyof Endpoint (endpoints Api)) UnknownEndpoint;
  ComputedEndpoint ← computed ComputedEndpoint (ApiGetEndpoint Api Endpoint);
  match ep_metadata ComputedEndpoint with
  | Some Meta =>
      match schemaType Meta with
      | Some Ty => Ok Ty
      | None => Ok (ApiGetSchemaType Api (Some DefaultSchemaType))
      end
  | None => Ok (ApiGetSchemaType Api (Some DefaultSchemaType))
  end.

Definition ApiGetEndpointBodySchemaType (Api : ApiSpec) (Endpoint : string)
    (DefaultSchemaType : option SchemaType) : Result SchemaType :=
  let DefaultSchemaType := default ApiTypeScriptSchema DefaultSchemaType in
  _ ← constraint (extends_keyof Endpoint (endpoints Api)) UnknownEndpoint;
  Body ← ApiGetEndpointBody Api Endpoint;
  match Body with
  | TsParameter Param =>
      match param_metadata Param with
      | Some Meta =>
          match schemaType Meta with
          | Some Ty => Ok Ty
          | None =>
              ApiGetEndpointSchemaType Api Endpoint (Some DefaultSchemaType) None
          end
      | None =>
          ApiGetEndpointSchemaType Api Endpoint (Some DefaultSchemaType) None
      end
  | _ => ApiGetEndpointSchemaType Api Endpoint (Some DefaultSchemaType) None
  end.

Definition ApiGetEndpointEntrySchemaType (Api : ApiSpec) (Endpoint : string)
    (Entry : ApiEntry) (EntryParam : string)
    (DefaultSchemaType : option SchemaType) : Result SchemaType :=
  let DefaultSchemaType := default ApiTypeScriptSchema DefaultSchemaType in
  _ ← constraint (extends_keyof Endpoint (endpoints Api)) UnknownEndpoint;
  E ← ApiGetEndpoint Api Endpoint;
  _ ← constraint (extends_keyof_entry EntryParam E Entry) UnknownEntry;
  match entry_param E Entry EntryParam with
  | TsParameter Param =>
      match param_metadata Param with
      | Some Meta =>
          match schemaType Meta with
          | Some Ty => Ok Ty
          | None =>
              ApiGetEndpointSchemaType Api Endpoint (Some DefaultSchemaType) None
          end
      | None =>
          ApiGetEndpointSchemaType Api Endpoint (Some DefaultSchemaType) None
      end
  | _ => ApiGetEndpointSchemaType Api Endpoint (Some DefaultSchemaType) None
  end.

(** ** Projection (lines 124-245) *)

Section Projector.
Context {Provider Shape : Type}.

(** [NonNullable<S["_provider"]>]: the provider carried by a schema type
    ([./schema-type.types]). *)
Variable _provider : SchemaType -> Provider.

(** [InferInputTypeFromSchema<Provider, Schema>] and its output twin
    ([./schema-type.types]): the projections a provider registers. *)
Variable InferInputTypeFromSchema : Provider -> TsType -> Shape.
Variable InferOutputTypeFromSchema : Provider -> TsType -> Shape.

Definition ApiInferEndpointBody (Api : ApiSpec) (Endpoint : string)
    (DefaultSchemaType : option SchemaType) : Result Shape :=
  let DefaultSchemaType := default ApiTypeScriptSchema DefaultSchemaType in
  _ ← constraint (extends_keyof Endpoint (endpoints Api)) UnknownEndpoint;
  Body ← ApiGetEndpointBody Api Endpoint;
  match Body with
  | TsParameter Param =>
      S ← ApiGetEndpointBodySchemaType Api Endpoint (Some DefaultSchemaType);
      Ok (InferInputTypeFromSchema (_provider S) (TsOpaque (schema Param)))
  | _ =>
      S ← ApiGetEndpointSchemaType Api Endpoint (Some DefaultSchemaType) None;
      Ok (InferInputTypeFromSchema (_provider S) Body)
  end.

Definition ApiInferEndpointInputEntry (Api : ApiSpec) (Endpoint : string)
    (Entry : ApiEntry) (EntryParam : string)
    (DefaultSchemaType : option SchemaType)
    (ComputedEntryParam : option TsType) : Result Shape :=
  let DefaultSchemaType := default ApiTypeScriptSchema DefaultSchemaType in
  _ ← constraint (extends_keyof Endpoint (endpoints Api)) UnknownEndpoint;
  E ← ApiGetEndpoint Api Endpoint;
  _ ← constraint (extends_keyof_entry EntryParam E Entry) UnknownEntry;
  ComputedEntryParam ←
    computed ComputedEntryParam (Ok (entry_param E Entry EntryParam));
  match ComputedEntryParam with
  | TsParameter Param =>
      S ← ApiGetEndpointEntrySchemaType Api Endpoint Entry EntryParam
            (Some DefaultSchemaType);
      Ok (InferInputTypeFromSchema (_provider S) (TsOpaque (schema Param)))
  | _ =>
      S ← ApiGetEndpointEntrySchemaType Api Endpoint Entry EntryParam
            (Some DefaultSchemaType);
      Ok (InferInputTypeFromSchema (_provider S) ComputedEntryParam)
  end.

Definition ApiInferEndpointOutputEntry (Api : ApiSpec) (Endpoint : string)
    (Entry : ApiEntry) (EntryParam : string)
    (DefaultSchemaType : option SchemaType)
    (ComputedEntryParam : option TsType) : Result Shape :=
  let DefaultSchemaType := default ApiTypeScriptSchema DefaultSchemaType in
  _ ← constraint (extends_keyof Endpoint (endpoints Api)) UnknownEndpoint;
  E ← ApiGetEndpoint Api Endpoint;
  _ ← constraint (extends_keyof_entry EntryParam E Entry) UnknownEntry;
  ComputedEntryParam ←
    computed ComputedEntryParam (Ok (entry_param E Entry EntryParam));
  match ComputedEntryParam with
  | TsParameter Param =>
      S ← ApiGetEndpointEntrySchemaType Api Endpoint Entry EntryParam
            (Some DefaultSchemaType);
      Ok (InferOutputTypeFromSchema (_provider S) (TsOpaque (schema Param)))
  | _ =>
      S ← ApiGetEndpointEntrySchemaType Api Endpoint Entry EntryParam
            (Some DefaultSchemaType);
      Ok (InferOutputTypeFromSchema (_provider S) ComputedEntryParam)
  end.

(** The per-kind wrappers (lines 262-525). *)

Definition ApiInferEndpointInputParam (Api : ApiSpec) (Endpoint : string)
    (PathParam : string) (DefaultSchemaType : option SchemaType) :=
  ApiInferEndpointInputEntry Api Endpoint params PathParam
    (Some (default ApiTypeScriptSchema DefaultSchemaType)) None.

Definition ApiInferEndpointInputQuery (Api : ApiSpec) (Endpoint : string)
    (QueryParam : string) (DefaultSchemaType : option SchemaType) :=
  ApiInferEndpointInputEntry Api Endpoint query QueryParam
    (Some (default ApiTypeScriptSchema DefaultSchemaType)) None.

Definition ApiInferEndpointInputHeader (Api : ApiSpec) (Endpoint : string)
    (HeaderParam : string) (DefaultSchemaType : option SchemaType) :=
  ApiInferEndpointInputEntry Api Endpoint headers HeaderParam
    (Some (default ApiTypeScriptSchema DefaultSchemaType)) None.

Definition ApiInferEndpointInputCookie (Api : ApiSpec) (Endpoint : string)
    (CookieParam : string) (DefaultSchemaType : option SchemaType) :=
  ApiInferEndpointInputEntry Api Endpoint cookies CookieParam
    (Some (default ApiTypeScriptSchema DefaultSchemaType)) None.

Definition ApiInferEndpointInputResponse (Api : ApiSpec) (Endpoint : string)
    (StatusCode : string) (DefaultSchemaType : option SchemaType) :=
  ApiInferEndpointInputEntry Api Endpoint responses StatusCode
    (Some (default ApiTypeScriptSchema DefaultSchemaType)) None.

Definition ApiInferEndpointOutputParam (Api : ApiSpec) (Endpoint : string)
    (PathParam : string) (DefaultSchemaType : option SchemaType) :=
  ApiInferEndpointOutputEntry Api Endpoint params PathParam
    (Some (default ApiTypeScriptSchema DefaultSchemaType)) None.

Definition ApiInferEndpointOutputQuery (Api : ApiSpec) (Endpoint : string)
    (QueryParam : string) (DefaultSchemaType : option SchemaType) :=
  ApiInferEndpointOutputEntry Api Endpoint query QueryParam
    (Some (default ApiTypeScriptSchema DefaultSchemaType)) None.

Definition ApiInferEndpointOutputHeader (Api : ApiSpec) (Endpoint : string)
    (HeaderParam : string) (DefaultSchemaType : option SchemaType) :=
  ApiInferEndpointOutputEntry Api Endpoint headers HeaderParam
    (Some (default ApiTypeScriptSchema DefaultSchemaType)) None.

Definition ApiInferEndpointOutputCookie (Api : ApiSpec) (Endpoint : string)
    (CookieParam : string) (DefaultSchemaType : option SchemaType) :=
  ApiInferEndpointOutputEntry Api Endpoint cookies CookieParam
    (Some (default ApiTypeScriptSchema DefaultSchemaType)) None.

Definition ApiInferEndpointOutputResponse (Api : ApiSpec) (Endpoint : string)
    (StatusCode : string) (DefaultSchemaType : option SchemaType) :=
  ApiInferEndpointOutputEntry Api Endpoint responses StatusCode
    (Some (default ApiTypeScriptSchema DefaultSchemaType)) None.

End Projector.

(** ** What a level declares *)

(** The [schemaType] a metadata component declares, if any: the two nested
    [extends] tests of each level, read as one partial function. *)
Definition declared (m : option (ApiBaseMetadata SchemaType))
  : option SchemaType :=
  Meta ← m; schemaType Meta.

(** The [schemaType] declared at a location itself; only a type that extends
    [ApiParameter] is consulted. *)
Definition declared_at (v : TsType) : option SchemaType :=
  match v with
  | TsParameter Param => declared (param_metadata Param)
  | _ => None
  end.

(** The operand a location offers to the projection. *)
Definition operand_of (v : TsType) : TsType :=
  match v with
  | TsParameter Param => TsOpaque (schema Param)
  | _ => v
  end.

End Cascade.

(** ** A concrete description

    Provider identifiers, schemas and shapes are strings here.  [D] is the
    description of the specification's scenario; [shop] declares a schema type
    at every level. *)

Module Scenario.

Definition P0 : string := "P0".
Definition P1 : string := "P1".

Definition meta (P : string) : option (ApiBaseMetadata string) :=
  Some {| schemaType := Some P |}.

Definition id_param : ApiParameter string string :=
  {| param_metadata := None; schema := "string" |}.

Definition getUser : ApiEndpoint string string :=
  {| ep_metadata := meta P1;
     ep_params := Some {[ "id" := TsParameter id_param ]};
     ep_query := None;
     ep_headers := None;
     ep_cookies := None;
     ep_responses := Some {[ "200" := TsOpaque "User" ]};
     ep_body := TsUndefined |}.

Definition D : ApiSpec string string :=
  {| api_metadata := None; endpoints := {[ "getUser" := getUser ]} |}.

Definition sku_param : ApiParameter string string :=
  {| param_metadata := meta "zod"; schema := "sku" |}.

Definition order_body : ApiParameter string string :=
  {| param_metadata := meta "zod"; schema := "order" |}.

Definition createOrder : ApiEndpoint string string :=
  {| ep_metadata := meta "io-ts";
     ep_params := None;
     ep_query := Some {[ "sku" := TsParameter sku_param ]};
     ep_headers := Some {[ "x-trace" := TsOpaque "string" ]};
     ep_cookies := None;
     ep_responses := None;
     ep_body := TsParameter order_body |}.

Definition ping : ApiEndpoint string string :=
  {| ep_metadata := None;
     ep_params := None;
     ep_query := Some {[ "echo" := TsOpaque "string" ]};
     ep_headers := None;
     ep_cookies := None;
     ep_responses := None;
     ep_body := TsUndefined |}.

Definition shop : ApiSpec string string :=
  {| api_metadata := meta "yup";
     endpoints := {[ "createOrder" := createOrder; "ping" := ping ]} |}.

Definition bare : ApiSpec string string :=
  {| api_metadata := None; endpoints := {[ "ping" := ping ]} |}.

(** The provider carried by a schema type: its identifier. *)
Definition provider_of (S : string) : string := S.

(** A registry in which [P1] projects a schema to the shape of the same name
    and every other provider tags the shape with its own identifier. *)
Definition projectInput (P : string) (v : TsType string string) : string :=
  match v with
  | TsOpaque s => if String.eqb P P1 then s else P +:+ ".input(" +:+ s +:+ ")"
  | TsUndefined => P +:+ ".input(undefined)"
  | TsParameter _ => "never"
  end.

Definition projectOutput (P : string) (v : TsType string string) : string :=
  match v with
  | TsOpaque s => P +:+ ".output(" +:+ s +:+ ")"
  | TsUndefined => P +:+ ".output(undefined)"
  | TsParameter _ => "never"
  end.

End Scenario.

(** ** Edited descriptions and closed forms

    The constructions below are not functions of the source: they build the
    descriptions and the expected outcomes in which the further properties of
    the cascade are stated. *)

Section Edits.
Context {SchemaType Schema : Type}.

(** The description with its top-level metadata replaced. *)
Definition with_metadata (Api : ApiSpec SchemaType Schema)
    (m : option (ApiBaseMetadata SchemaType)) : ApiSpec SchemaType Schema :=
  {| api_metadata := m; endpoints := endpoints Api |}.

(** The description with [E] bound to the endpoint name [en]. *)
Definition with_endpoint (Api : ApiSpec SchemaType Schema) (en : string)
    (E : ApiEndpoint SchemaType Schema) : ApiSpec SchemaType Schema :=
  {| api_metadata := api_metadata Api;
     endpoints := <[ en := E ]> (endpoints Api) |}.

(** The description without the endpoint name [en]. *)
Definition without_endpoint (Api : ApiSpec SchemaType Schema) (en : string)
  : ApiSpec SchemaType Schema :=
  {| api_metadata := api_metadata Api;
     endpoints := delete en (endpoints Api) |}.

(** The outcome expected of an entry projection on a known endpoint [E]:
    [o] is what the name is bound to in the collection, if anything. *)
Definition entry_outcome {Provider Shape : Type}
    (ApiTypeScriptSchema : SchemaType) (_provider : SchemaType → Provider)
    (Infer : Provider → TsType SchemaType Schema → Shape)
    (Api : ApiSpec SchemaType Schema) (E : ApiEndpoint SchemaType Schema)
    (d : option SchemaType) (o : option (TsType SchemaType Schema))
  : Result Shape :=
  match o with
  | Some v =>
      Ok (Infer
            (_provider
               (default
                  (default (ApiGetSchemaType ApiTypeScriptSchema Api d)
                           (declared (ep_metadata E)))
                  (declared_at v)))
            (operand_of v))
  | None => Err UnknownEntry
  end.

End Edits.

(** Variants of the concrete descriptions: metadata that is present but
    declares no schema type. *)
Module Variants.

Definition no_schemaType : option (ApiBaseMetadata string) :=
  Some {| schemaType := None |}.

Definition ping_described : ApiEndpoint string string :=
  {| ep_metadata := no_schemaType;
     ep_params := None;
     ep_query := None;
     ep_headers := Some {[ "echo" := TsParameter
                             {| param_metadata := no_schemaType;
                                schema := "string" |} ]};
     ep_cookies := None;
     ep_responses := None;
     ep_body := TsOpaque "text" |}.

Definition bare_described : ApiSpec string string :=
  {| api_metadata := no_schemaType;
     endpoints := {[ "health" := ping_described ]} |}.

End Variants.

(** * Properties *)

Section Properties.
Context {SchemaType Schema Provider : Type}.
Variable ApiTypeScriptSchema : SchemaType.
Variable _provider : SchemaType -> Provider.

#[local] Abbreviation ApiSpec := (ApiSpec SchemaType Schema).
#[local] Abbreviation ApiEndpoint := (ApiEndpoint SchemaType Schema).
#[local] Abbreviation TsType := (TsType SchemaType Schema).
#[local] Abbreviation TS := ApiTypeScriptSchema.

Implicit Types (Api : ApiSpec) (E : ApiEndpoint) (v : TsType).
Implicit Types (M : gmap string TsType) (d : option SchemaType).
Implicit Types (en n : string) (k : ApiEntry).

(** ** Constraints *)

Lemma constraint_keyof_Some {V} (K : string) (M : gmap string V) x e :
  M !! K = Some x → constraint (extends_keyof K M) e = Ok tt.
Proof.
  intros HK. unfold constraint, extends_keyof.
  rewrite bool_decide_eq_true_2; [done | by rewrite HK].
Qed.

Lemma constraint_keyof_None {V} (K : string) (M : gmap string V) e :
  M !! K = None → constraint (extends_keyof K M) e = Err e.
Proof.
  intros HK. unfold constraint, extends_keyof.
  rewrite bool_decide_eq_false_2; [done |].
  rewrite HK. by intros [? ?].
Qed.

Lemma constraint_entry_Some E k M n v e :
  entry_collection E k = Some M → M !! n = Some v →
  constraint (extends_keyof_entry n E k) e = Ok tt
  ∧ entry_param E k n = v.
Proof.
  intros HM Hn. unfold extends_keyof_entry, entry_param. rewrite HM.
  split; [by eapply constraint_keyof_Some | by rewrite Hn].
Qed.

Lemma constraint_entry_None E k n e :
  entry_collection E k ≫= (.!! n) = None →
  constraint (extends_keyof_entry n E k) e = Err e.
Proof.
  unfold extends_keyof_entry. destruct (entry_collection E k) as [M|]; simpl.
  - apply constraint_keyof_None.
  - done.
Qed.

(** The step every proof about a known endpoint starts with: the constraint
    on [Endpoint] passes and the lookup yields the endpoint. *)
Ltac known_endpoint HE :=
  try unfold ApiGetEndpointBody; unfold ApiGetEndpoint;
  rewrite (constraint_keyof_Some _ _ _ _ HE), HE; simpl.

(** ** The cascade in closed form: the nearest declaration wins *)

Lemma ApiGetSchemaType_declared Api d :
  ApiGetSchemaType TS Api d
  = default (default TS d) (declared (api_metadata Api)).
Proof.
  unfold ApiGetSchemaType, declared.
  destruct (api_metadata Api) as [[[Ty|]]|]; reflexivity.
Qed.

Lemma ApiGetSchemaType_resolved_default Api d :
  ApiGetSchemaType TS Api (Some (default TS d)) = ApiGetSchemaType TS Api d.
Proof. reflexivity. Qed.

Lemma ApiGetEndpointSchemaType_declared Api en E d :
  endpoints Api !! en = Some E →
  ApiGetEndpointSchemaType TS Api en d None
  = Ok (default (ApiGetSchemaType TS Api d) (declared (ep_metadata E))).
Proof.
  intros HE. unfold ApiGetEndpointSchemaType. known_endpoint HE.
  unfold declared. destruct (ep_metadata E) as [[[Ty|]]|]; reflexivity.
Qed.

Lemma ApiGetEndpointBodySchemaType_declared Api en E d :
  endpoints Api !! en = Some E →
  ApiGetEndpointBodySchemaType TS Api en d
  = Ok (default
          (default (ApiGetSchemaType TS Api d) (declared (ep_metadata E)))
          (declared_at (ep_body E))).
Proof.
  intros HE. unfold ApiGetEndpointBodySchemaType. known_endpoint HE.
  pose proof (ApiGetEndpointSchemaType_declared Api en E (Some (default TS d)) HE)
    as Hup.
  rewrite ApiGetSchemaType_resolved_default in Hup.
  destruct (ep_body E) as [|s|[[[[Ty|]]|] s]]; simpl; auto.
Qed.

Lemma ApiGetEndpointEntrySchemaType_declared Api en E k M n v d :
  endpoints Api !! en = Some E →
  entry_collection E k = Some M → M !! n = Some v →
  ApiGetEndpointEntrySchemaType TS Api en k n d
  = Ok (default
          (default (ApiGetSchemaType TS Api d) (declared (ep_metadata E)))
          (declared_at v)).
Proof.
  intros HE HM Hn. unfold ApiGetEndpointEntrySchemaType. known_endpoint HE.
  destruct (constraint_entry_Some E k M n v UnknownEntry HM Hn) as [-> ->].
  simpl.
  pose proof (ApiGetEndpointSchemaType_declared Api en E (Some (default TS d)) HE)
    as Hup.
  rewrite ApiGetSchemaType_resolved_default in Hup.
  destruct v as [|s|[[[[Ty|]]|] s]]; simpl; auto.
Qed.

(** ** The projections in closed form *)

Lemma ApiInferEndpointBody_resolved {Shape : Type}
    (InferIn : Provider → TsType → Shape) Api en E d :
  endpoints Api !! en = Some E →
  ApiInferEndpointBody TS _provider InferIn Api en d
  = Ok (InferIn
          (_provider
             (default
                (default (ApiGetSchemaType TS Api d) (declared (ep_metadata E)))
                (declared_at (ep_body E))))
          (operand_of (ep_body E))).
Proof.
  intros HE. unfold ApiInferEndpointBody. known_endpoint HE.
  rewrite (ApiGetEndpointBodySchemaType_declared Api en E _ HE).
  rewrite (ApiGetEndpointSchemaType_declared Api en E _ HE).
  rewrite ApiGetSchemaType_resolved_default.
  destruct (ep_body E) as [|s|p]; reflexivity.
Qed.

Lemma ApiInferEndpointInputEntry_resolved {Shape : Type}
    (InferIn : Provider → TsType → Shape) Api en E k M n v d
    (c : option TsType) :
  endpoints Api !! en = Some E →
  entry_collection E k = Some M → M !! n = Some v →
  ApiInferEndpointInputEntry TS _provider InferIn Api en k n d c
  = Ok (InferIn
          (_provider
             (default
                (default (ApiGetSchemaType TS Api d) (declared (ep_metadata E)))
                (declared_at v)))
          (operand_of (default v c))).
Proof.
  intros HE HM Hn. unfold ApiInferEndpointInputEntry. known_endpoint HE.
  destruct (constraint_entry_Some E k M n v UnknownEntry HM Hn) as [-> ->].
  simpl.
  rewrite (ApiGetEndpointEntrySchemaType_declared Api en E k M n v _ HE HM Hn).
  rewrite ApiGetSchemaType_resolved_default.
  destruct c as [c|]; simpl; [destruct c | destruct v]; reflexivity.
Qed.

Lemma ApiInferEndpointOutputEntry_resolved {Shape : Type}
    (InferOut : Provider → TsType → Shape) Api en E k M n v d
    (c : option TsType) :
  endpoints Api !! en = Some E →
  entry_collection E k = Some M → M !! n = Some v →
  ApiInferEndpointOutputEntry TS _provider InferOut Api en k n d c
  = Ok (InferOut
          (_provider
             (default
                (default (ApiGetSchemaType TS Api d) (declared (ep_metadata E)))
                (declared_at v)))
          (operand_of (default v c))).
Proof.
  intros HE HM Hn. unfold ApiInferEndpointOutputEntry. known_endpoint HE.
  destruct (constraint_entry_Some E k M n v UnknownEntry HM Hn) as [-> ->].
  simpl.
  rewrite (ApiGetEndpointEntrySchemaType_declared Api en E k M n v _ HE HM Hn).
  rewrite ApiGetSchemaType_resolved_default.
  destruct c as [c|]; simpl; [destruct c | destruct v]; reflexivity.
Qed.

(** ** Precedence and fallback *)

(** C1 (cascade precedence): when a parameter of a name-keyed collection (or
    the body data parameter), its endpoint and the description each declare a
    schema type, the schema type resolved for that location is the
    parameter's own, and so is neither the endpoint's nor the description's
    when those differ from it. *)
Theorem cascade_precedence_narrowest_wins
    Api en E Param MetaP P MetaE Pe MetaA Pa d :
  endpoints Api !! en = Some E →
  param_metadata Param = Some MetaP → schemaType MetaP = Some P →
  ep_metadata E = Some MetaE → schemaType MetaE = Some Pe →
  api_metadata Api = Some MetaA → schemaType MetaA = Some Pa →
  (∀ k M n,
     entry_collection E k = Some M → M !! n = Some (TsParameter Param) →
     let r := ApiGetEndpointEntrySchemaType TS Api en k n d in
     r = Ok P ∧ (P ≠ Pe → r ≠ Ok Pe) ∧ (P ≠ Pa → r ≠ Ok Pa))
  ∧ (ep_body E = TsParameter Param →
     let r := ApiGetEndpointBodySchemaType TS Api en d in
     r = Ok P ∧ (P ≠ Pe → r ≠ Ok Pe) ∧ (P ≠ Pa → r ≠ Ok Pa)).
Proof.
  intros HE HmP HP HmE HPe HmA HPa.
  assert (Hown : declared_at (TsParameter Param) = Some P).
  { simpl. unfold declared. rewrite HmP. exact HP. }
  split.
  - intros k M n HM Hn r.
    assert (Hr : r = Ok P).
    { unfold r.
      rewrite (ApiGetEndpointEntrySchemaType_declared Api en E k M n _ d HE HM Hn).
      by rewrite Hown. }
    rewrite Hr. repeat split; congruence.
  - intros Hb r.
    assert (Hr : r = Ok P).
    { unfold r. rewrite (ApiGetEndpointBodySchemaType_declared Api en E d HE).
      by rewrite Hb, Hown. }
    rewrite Hr. repeat split; congruence.
Qed.

(** C2 (fallback chain): at a location that declares no schema type of its
    own, resolution returns the endpoint's declared schema type; when the
    endpoint declares none, the description's; when none of the three is
    declared, the default that was supplied. *)
Theorem fallback_chain Api en E v D :
  endpoints Api !! en = Some E →
  declared_at v = None →
  let chain :=
    match declared (ep_metadata E), declared (api_metadata Api) with
    | Some Pe, _ => Pe
    | None, Some Pa => Pa
    | None, None => D
    end in
  (∀ k M n,
     entry_collection E k = Some M → M !! n = Some v →
     ApiGetEndpointEntrySchemaType TS Api en k n (Some D) = Ok chain)
  ∧ (ep_body E = v →
     ApiGetEndpointBodySchemaType TS Api en (Some D) = Ok chain).
Proof.
  intros HE Hv chain.
  assert (Hchain :
    default (default (ApiGetSchemaType TS Api (Some D))
                     (declared (ep_metadata E))) (declared_at v) = chain).
  { rewrite Hv, ApiGetSchemaType_declared. unfold chain.
    destruct (declared (ep_metadata E)), (declared (api_metadata Api));
      reflexivity. }
  split.
  - intros k M n HM Hn.
    rewrite (ApiGetEndpointEntrySchemaType_declared Api en E k M n v _ HE HM Hn).
    by rewrite Hchain.
  - intros Hb.
    rewrite (ApiGetEndpointBodySchemaType_declared Api en E _ HE).
    by rewrite Hb, Hchain.
Qed.

(** C3 (body special case): for an endpoint that declares no body, resolving
    the schema type of the body is the endpoint-level resolution itself
    (endpoint metadata, then description metadata, then the default); it
    yields a schema type and is never rejected as an unknown entry, and the
    body projection is applied with that schema type's provider. *)
Theorem body_absent_falls_through {Shape : Type}
    (InferIn : Provider → TsType → Shape) Api en E d :
  endpoints Api !! en = Some E →
  ep_body E = TsUndefined →
  let level :=
    match declared (ep_metadata E), declared (api_metadata Api) with
    | Some Pe, _ => Pe
    | None, Some Pa => Pa
    | None, None => default TS d
    end in
  ApiGetEndpointBodySchemaType TS Api en d
  = ApiGetEndpointSchemaType TS Api en d None
  ∧ ApiGetEndpointBodySchemaType TS Api en d = Ok level
  ∧ ApiGetEndpointBodySchemaType TS Api en d ≠ Err UnknownEntry
  ∧ ApiInferEndpointBody TS _provider InferIn Api en d
    = Ok (InferIn (_provider level) TsUndefined).
Proof.
  intros HE Hb level.
  assert (Hlevel :
    default (ApiGetSchemaType TS Api d) (declared (ep_metadata E)) = level).
  { rewrite ApiGetSchemaType_declared. unfold level.
    destruct (declared (ep_metadata E)), (declared (api_metadata Api));
      reflexivity. }
  rewrite (ApiGetEndpointBodySchemaType_declared Api en E d HE).
  rewrite (ApiGetEndpointSchemaType_declared Api en E d HE).
  rewrite (ApiInferEndpointBody_resolved InferIn Api en E d HE).
  rewrite Hb, Hlevel. simpl. repeat split; congruence.
Qed.

(** ** Locations without a schema *)

(** C4 (schema-absent pass-through): at a location whose type is not a
    parameter carrying a [schema] (a bare entry of a collection, a bare or
    absent body), the operand given to the projection of the resolved
    provider is that type itself, and the operation returns the projection's
    result as it is, not an error. *)
Theorem schema_absent_pass_through {Shape : Type}
    (InferIn InferOut : Provider → TsType → Shape) Api en E v d :
  endpoints Api !! en = Some E →
  (∀ Param, v ≠ TsParameter Param) →
  (∀ k M n,
     entry_collection E k = Some M → M !! n = Some v →
     ∃ S,
       ApiGetEndpointEntrySchemaType TS Api en k n d = Ok S
       ∧ ApiInferEndpointInputEntry TS _provider InferIn Api en k n d None
         = Ok (InferIn (_provider S) v)
       ∧ ApiInferEndpointOutputEntry TS _provider InferOut Api en k n d None
         = Ok (InferOut (_provider S) v))
  ∧ (ep_body E = v →
     ∃ S,
       ApiGetEndpointBodySchemaType TS Api en d = Ok S
       ∧ ApiInferEndpointBody TS _provider InferIn Api en d
         = Ok (InferIn (_provider S) v)).
Proof.
  intros HE Hv.
  assert (Hop : operand_of v = v).
  { destruct v as [|s|p]; [reflexivity | reflexivity |].
    by destruct (Hv p). }
  split.
  - intros k M n HM Hn. eexists. split; [| split].
    + by apply (ApiGetEndpointEntrySchemaType_declared Api en E k M n v).
    + rewrite (ApiInferEndpointInputEntry_resolved
                 InferIn Api en E k M n v d None HE HM Hn).
      simpl. by rewrite Hop.
    + rewrite (ApiInferEndpointOutputEntry_resolved
                 InferOut Api en E k M n v d None HE HM Hn).
      simpl. by rewrite Hop.
  - intros Hb. eexists. split.
    + by apply (ApiGetEndpointBodySchemaType_declared Api en E).
    + rewrite (ApiInferEndpointBody_resolved InferIn Api en E d HE).
      by rewrite Hb, Hop.
Qed.

(** ** Rejected names *)

(** C5 (unknown entry): for each of the five name-keyed entry kinds of an
    existing endpoint, a name that is not a key of that kind's collection is
    rejected as [UnknownEntry] by the schema-type resolution and by both
    projections; no schema type is returned and nothing falls back. *)
Theorem unknown_entry_is_signalled {Shape : Type}
    (InferIn InferOut : Provider → TsType → Shape) Api en E k n d
    (c : option TsType) :
  endpoints Api !! en = Some E →
  entry_collection E k ≫= (.!! n) = None →
  ApiGetEndpointEntrySchemaType TS Api en k n d = Err UnknownEntry
  ∧ ApiInferEndpointInputEntry TS _provider InferIn Api en k n d c
    = Err UnknownEntry
  ∧ ApiInferEndpointOutputEntry TS _provider InferOut Api en k n d c
    = Err UnknownEntry.
Proof.
  intros HE Hn.
  unfold ApiGetEndpointEntrySchemaType, ApiInferEndpointInputEntry,
    ApiInferEndpointOutputEntry. known_endpoint HE.
  rewrite (constraint_entry_None E k n UnknownEntry Hn). by simpl.
Qed.

(** C6 (unknown endpoint): for a name that is not a key of the description's
    endpoint mapping, every endpoint-indexed resolution and projection is
    rejected as [UnknownEndpoint]; none returns a schema type. *)
Theorem unknown_endpoint_is_signalled {Shape : Type}
    (InferIn InferOut : Provider → TsType → Shape) Api en k n d
    (ce : option ApiEndpoint) (c : option TsType) :
  endpoints Api !! en = None →
  (ApiGetEndpointSchemaType TS Api en d ce = Err UnknownEndpoint
   ∧ ApiGetEndpointBodySchemaType TS Api en d = Err UnknownEndpoint
   ∧ ApiGetEndpointEntrySchemaType TS Api en k n d = Err UnknownEndpoint)
  ∧ (∀ P, ApiGetEndpointSchemaType TS Api en d ce ≠ Ok P
          ∧ ApiGetEndpointBodySchemaType TS Api en d ≠ Ok P
          ∧ ApiGetEndpointEntrySchemaType TS Api en k n d ≠ Ok P)
  ∧ (ApiInferEndpointBody TS _provider InferIn Api en d = Err UnknownEndpoint
     ∧ ApiInferEndpointInputEntry TS _provider InferIn Api en k n d c
       = Err UnknownEndpoint
     ∧ ApiInferEndpointOutputEntry TS _provider InferOut Api en k n d c
       = Err UnknownEndpoint).
Proof.
  intros HE.
  unfold ApiGetEndpointSchemaType, ApiGetEndpointBodySchemaType,
    ApiGetEndpointEntrySchemaType, ApiInferEndpointBody,
    ApiInferEndpointInputEntry, ApiInferEndpointOutputEntry.
  rewrite (constraint_keyof_None _ _ UnknownEndpoint HE). simpl.
  repeat split; congruence.
Qed.

(** ** The scenario of the specification *)

(** C8 (concrete scenario): in a description whose endpoint ["getUser"]
    declares the schema type [P1] and whose path parameter ["id"] declares
    none, resolution for [params.id] with default [P0] returns [P1]; and when
    the input projection of [P1]'s provider maps the parameter's schema to
    [shape], the input shape of [params.id] is [shape]. *)
Theorem scenario_getUser_params_id {Shape : Type}
    (InferIn : Provider → TsType → Shape) Api E M Param P0 P1 (shape : Shape) :
  endpoints Api !! "getUser" = Some E →
  declared (ep_metadata E) = Some P1 →
  ep_params E = Some M → M !! "id" = Some (TsParameter Param) →
  declared (param_metadata Param) = None →
  InferIn (_provider P1) (TsOpaque (schema Param)) = shape →
  ApiGetEndpointEntrySchemaType TS Api "getUser" params "id" (Some P0) = Ok P1
  ∧ ApiInferEndpointInputEntry TS _provider InferIn
      Api "getUser" params "id" (Some P0) None = Ok shape
  ∧ ApiInferEndpointInputParam TS _provider InferIn Api "getUser" "id" (Some P0)
    = Ok shape.
Proof.
  intros HE HP1 HM Hid Hnone Hshape.
  assert (HM' : entry_collection E params = Some M) by exact HM.
  split; [| split].
  - rewrite (ApiGetEndpointEntrySchemaType_declared
               Api "getUser" E params M "id" _ _ HE HM' Hid).
    simpl. by rewrite Hnone, HP1.
  - rewrite (ApiInferEndpointInputEntry_resolved
               InferIn Api "getUser" E params M "id" _ _ None HE HM' Hid).
    simpl. rewrite Hnone, HP1. simpl. by rewrite Hshape.
  - unfold ApiInferEndpointInputParam.
    rewrite (ApiInferEndpointInputEntry_resolved
               InferIn Api "getUser" E params M "id" _ _ None HE HM' Hid).
    simpl. rewrite Hnone, HP1. simpl. by rewrite Hshape.
Qed.

(** ** The implicit default *)

(** C9 (implicit default): an omitted [DefaultSchemaType] argument behaves,
    in every resolution and projection, as the argument
    [ApiTypeScriptSchema]; and at a location where no level declares a schema
    type, with the default omitted, every resolution yields
    [ApiTypeScriptSchema] itself and every projection (the body's, the two
    entry projections and the ten per-kind ones) succeeds with the projection
    of [ApiTypeScriptSchema]'s provider applied to the location's operand. *)
Theorem omitted_default_is_ApiTypeScriptSchema {Shape : Type}
    (InferIn InferOut : Provider → TsType → Shape) Api en E k n v
    (ce : option ApiEndpoint) (c : option TsType) :
  endpoints Api !! en = Some E →
  declared (ep_metadata E) = None →
  declared (api_metadata Api) = None →
  declared_at v = None →
  (ApiGetSchemaType TS Api None = ApiGetSchemaType TS Api (Some TS)
   ∧ ApiGetEndpointSchemaType TS Api en None ce
     = ApiGetEndpointSchemaType TS Api en (Some TS) ce
   ∧ ApiGetEndpointBodySchemaType TS Api en None
     = ApiGetEndpointBodySchemaType TS Api en (Some TS)
   ∧ ApiGetEndpointEntrySchemaType TS Api en k n None
     = ApiGetEndpointEntrySchemaType TS Api en k n (Some TS)
   ∧ ApiInferEndpointBody TS _provider InferIn Api en None
     = ApiInferEndpointBody TS _provider InferIn Api en (Some TS)
   ∧ ApiInferEndpointInputEntry TS _provider InferIn Api en k n None c
     = ApiInferEndpointInputEntry TS _provider InferIn Api en k n (Some TS) c
   ∧ ApiInferEndpointOutputEntry TS _provider InferOut Api en k n None c
     = ApiInferEndpointOutputEntry TS _provider InferOut Api en k n (Some TS) c)
  ∧ (ApiInferEndpointInputParam TS _provider InferIn Api en n None
     = ApiInferEndpointInputParam TS _provider InferIn Api en n (Some TS)
     ∧ ApiInferEndpointInputQuery TS _provider InferIn Api en n None
       = ApiInferEndpointInputQuery TS _provider InferIn Api en n (Some TS)
     ∧ ApiInferEndpointInputHeader TS _provider InferIn Api en n None
       = ApiInferEndpointInputHeader TS _provider InferIn Api en n (Some TS)
     ∧ ApiInferEndpointInputCookie TS _provider InferIn Api en n None
       = ApiInferEndpointInputCookie TS _provider InferIn Api en n (Some TS)
     ∧ ApiInferEndpointInputResponse TS _provider InferIn Api en n None
       = ApiInferEndpointInputResponse TS _provider InferIn Api en n (Some TS)
     ∧ ApiInferEndpointOutputParam TS _provider InferOut Api en n None
       = ApiInferEndpointOutputParam TS _provider InferOut Api en n (Some TS)
     ∧ ApiInferEndpointOutputQuery TS _provider InferOut Api en n None
       = ApiInferEndpointOutputQuery TS _provider InferOut Api en n (Some TS)
     ∧ ApiInferEndpointOutputHeader TS _provider InferOut Api en n None
       = ApiInferEndpointOutputHeader TS _provider InferOut Api en n (Some TS)
     ∧ ApiInferEndpointOutputCookie TS _provider InferOut Api en n None
       = ApiInferEndpointOutputCookie TS _provider InferOut Api en n (Some TS)
     ∧ ApiInferEndpointOutputResponse TS _provider InferOut Api en n None
       = ApiInferEndpointOutputResponse TS _provider InferOut Api en n
           (Some TS))
  ∧ (ApiGetSchemaType TS Api None = TS
     ∧ ApiGetEndpointSchemaType TS Api en None None = Ok TS
     ∧ (ep_body E = v → ApiGetEndpointBodySchemaType TS Api en None = Ok TS)
     ∧ (∀ M, entry_collection E k = Some M → M !! n = Some v →
          ApiGetEndpointEntrySchemaType TS Api en k n None = Ok TS))
  ∧ ((ep_body E = v →
      ApiInferEndpointBody TS _provider InferIn Api en None
      = Ok (InferIn (_provider TS) (operand_of v)))
     ∧ (∀ M, entry_collection E k = Some M → M !! n = Some v →
          ApiInferEndpointInputEntry TS _provider InferIn Api en k n None None
          = Ok (InferIn (_provider TS) (operand_of v))
          ∧ ApiInferEndpointOutputEntry TS _provider InferOut
              Api en k n None None
            = Ok (InferOut (_provider TS) (operand_of v))))
  ∧ ((∀ M, ep_params E = Some M → M !! n = Some v →
        ApiInferEndpointInputParam TS _provider InferIn Api en n None
        = Ok (InferIn (_provider TS) (operand_of v))
        ∧ ApiInferEndpointOutputParam TS _provider InferOut Api en n None
          = Ok (InferOut (_provider TS) (operand_of v)))
     ∧ (∀ M, ep_query E = Some M → M !! n = Some v →
          ApiInferEndpointInputQuery TS _provider InferIn Api en n None
          = Ok (InferIn (_provider TS) (operand_of v))
          ∧ ApiInferEndpointOutputQuery TS _provider InferOut Api en n None
            = Ok (InferOut (_provider TS) (operand_of v)))
     ∧ (∀ M, ep_headers E = Some M → M !! n = Some v →
          ApiInferEndpointInputHeader TS _provider InferIn Api en n None
          = Ok (InferIn (_provider TS) (operand_of v))
          ∧ ApiInferEndpointOutputHeader TS _provider InferOut Api en n None
            = Ok (InferOut (_provider TS) (operand_of v)))
     ∧ (∀ M, ep_cookies E = Some M → M !! n = Some v →
          ApiInferEndpointInputCookie TS _provider InferIn Api en n None
          = Ok (InferIn (_provider TS) (operand_of v))
          ∧ ApiInferEndpointOutputCookie TS _provider InferOut Api en n None
            = Ok (InferOut (_provider TS) (operand_of v)))
     ∧ (∀ M, ep_responses E = Some M → M !! n = Some v →
          ApiInferEndpointInputResponse TS _provider InferIn Api en n None
          = Ok (InferIn (_provider TS) (operand_of v))
          ∧ ApiInferEndpointOutputResponse TS _provider InferOut Api en n None
            = Ok (InferOut (_provider TS) (operand_of v)))).
Proof.
  intros HE HdE HdA Hdv.
  split; [repeat split |].
  split; [repeat split |].
  assert (HA : ∀ d, default TS d = TS → ApiGetSchemaType TS Api d = TS).
  { intros d Hd. rewrite ApiGetSchemaType_declared. by rewrite HdA. }
  assert (Hlevel : ∀ d, default TS d = TS →
    default (default (ApiGetSchemaType TS Api d) (declared (ep_metadata E)))
            (declared_at v) = TS).
  { intros d Hd. by rewrite Hdv, HdE, (HA d Hd). }
  assert (HIn : ∀ k' M d, default TS d = TS →
    entry_collection E k' = Some M → M !! n = Some v →
    ApiInferEndpointInputEntry TS _provider InferIn Api en k' n d None
    = Ok (InferIn (_provider TS) (operand_of v))).
  { intros k' M d Hd HM Hn.
    rewrite (ApiInferEndpointInputEntry_resolved
               InferIn Api en E k' M n v d None HE HM Hn).
    by rewrite (Hlevel d Hd). }
  assert (HOut : ∀ k' M d, default TS d = TS →
    entry_collection E k' = Some M → M !! n = Some v →
    ApiInferEndpointOutputEntry TS _provider InferOut Api en k' n d None
    = Ok (InferOut (_provider TS) (operand_of v))).
  { intros k' M d Hd HM Hn.
    rewrite (ApiInferEndpointOutputEntry_resolved
               InferOut Api en E k' M n v d None HE HM Hn).
    by rewrite (Hlevel d Hd). }
  split; [| split].
  - split; [exact (HA None eq_refl) | split; [| split]].
    + rewrite (ApiGetEndpointSchemaType_declared Api en E None HE).
      by rewrite HdE, (HA None eq_refl).
    + intros Hb.
      rewrite (ApiGetEndpointBodySchemaType_declared Api en E None HE).
      by rewrite Hb, (Hlevel None eq_refl).
    + intros M HM Hn.
      rewrite (ApiGetEndpointEntrySchemaType_declared
                 Api en E k M n v None HE HM Hn).
      by rewrite (Hlevel None eq_refl).
  - split.
    + intros Hb.
      rewrite (ApiInferEndpointBody_resolved InferIn Api en E None HE).
      by rewrite Hb, (Hlevel None eq_refl).
    + intros M HM Hn. split.
      * exact (HIn k M None eq_refl HM Hn).
      * exact (HOut k M None eq_refl HM Hn).
  - split; [| split; [| split; [| split]]]; intros M HM Hn; split.
    + exact (HIn params M (Some TS) eq_refl HM Hn).
    + exact (HOut params M (Some TS) eq_refl HM Hn).
    + exact (HIn query M (Some TS) eq_refl HM Hn).
    + exact (HOut query M (Some TS) eq_refl HM Hn).
    + exact (HIn headers M (Some TS) eq_refl HM Hn).
    + exact (HOut headers M (Some TS) eq_refl HM Hn).
    + exact (HIn cookies M (Some TS) eq_refl HM Hn).
    + exact (HOut cookies M (Some TS) eq_refl HM Hn).
    + exact (HIn responses M (Some TS) eq_refl HM Hn).
    + exact (HOut responses M (Some TS) eq_refl HM Hn).
Qed.

(** ** Input and output resolve alike *)

(** C10 (input/output agreement): for every description, endpoint, entry
    kind, entry name and default, the input-shape and the output-shape
    operation either are both rejected for the same reason, or apply
    respectively the input and the output projection of one and the same
    provider, the one resolved for the location, to one and the same
    operand. *)
Theorem input_output_resolve_same_provider Api en k n d (c : option TsType) :
  (∃ S (operand : TsType),
     ApiGetEndpointEntrySchemaType TS Api en k n d = Ok S
     ∧ ∀ (Shape : Type) (InferIn InferOut : Provider → TsType → Shape),
         ApiInferEndpointInputEntry TS _provider InferIn Api en k n d c
         = Ok (InferIn (_provider S) operand)
         ∧ ApiInferEndpointOutputEntry TS _provider InferOut Api en k n d c
           = Ok (InferOut (_provider S) operand))
  ∨ (∃ e,
       ApiGetEndpointEntrySchemaType TS Api en k n d = Err e
       ∧ ∀ (Shape : Type) (InferIn InferOut : Provider → TsType → Shape),
           ApiInferEndpointInputEntry TS _provider InferIn Api en k n d c
           = Err e
           ∧ ApiInferEndpointOutputEntry TS _provider InferOut Api en k n d c
             = Err e).
Proof.
  destruct (endpoints Api !! en) as [E|] eqn:HE.
  - destruct (entry_collection E k ≫= (.!! n)) as [v|] eqn:Hn.
    + left.
      destruct (entry_collection E k) as [M|] eqn:HM; simpl in Hn; [| done].
      eexists _, (operand_of (default v c)). split.
      * by apply (ApiGetEndpointEntrySchemaType_declared Api en E k M n v).
      * intros Shape InferIn InferOut. split.
        -- by apply (ApiInferEndpointInputEntry_resolved InferIn Api en E k M).
        -- by apply (ApiInferEndpointOutputEntry_resolved InferOut Api en E k M).
    + right. exists UnknownEntry. split.
      * unfold ApiGetEndpointEntrySchemaType. known_endpoint HE.
        by rewrite (constraint_entry_None E k n UnknownEntry Hn).
      * intros Shape InferIn InferOut.
        unfold ApiInferEndpointInputEntry, ApiInferEndpointOutputEntry.
        known_endpoint HE.
        by rewrite (constraint_entry_None E k n UnknownEntry Hn).
  - right. exists UnknownEndpoint. split.
    + unfold ApiGetEndpointEntrySchemaType.
      by rewrite (constraint_keyof_None _ _ UnknownEndpoint HE).
    + intros Shape InferIn InferOut.
      unfold ApiInferEndpointInputEntry, ApiInferEndpointOutputEntry.
      by rewrite (constraint_keyof_None _ _ UnknownEndpoint HE).
Qed.

End Properties.

(** * The properties on the concrete descriptions *)

Import Scenario.

(** [shop.createOrder]: the query parameter [sku] and the body both declare
    ["zod"], under an endpoint declaring ["io-ts"] and a description declaring
    ["yup"]. *)
Lemma cascade_precedence_narrowest_wins_witness :
  ApiGetEndpointEntrySchemaType "ts" shop "createOrder" query "sku" (Some P0)
  = Ok "zod"
  ∧ ApiGetEndpointBodySchemaType "ts" shop "createOrder" (Some P0) = Ok "zod".
Proof.
  split.
  - destruct (cascade_precedence_narrowest_wins "ts" shop "createOrder"
                createOrder sku_param
                {| schemaType := Some "zod" |} "zod"
                {| schemaType := Some "io-ts" |} "io-ts"
                {| schemaType := Some "yup" |} "yup" (Some P0)
                eq_refl eq_refl eq_refl eq_refl eq_refl eq_refl eq_refl)
      as [Hentry _].
    exact (proj1 (Hentry query {[ "sku" := TsParameter sku_param ]} "sku"
                    eq_refl eq_refl)).
  - destruct (cascade_precedence_narrowest_wins "ts" shop "createOrder"
                createOrder order_body
                {| schemaType := Some "zod" |} "zod"
                {| schemaType := Some "io-ts" |} "io-ts"
                {| schemaType := Some "yup" |} "yup" (Some P0)
                eq_refl eq_refl eq_refl eq_refl eq_refl eq_refl eq_refl)
      as [_ Hbody].
    exact (proj1 (Hbody eq_refl)).
Defined.

(** The three steps of the chain: a bare header under an endpoint that
    declares ["io-ts"]; a bare query entry and an absent body under an
    endpoint that declares nothing, in a description that declares ["yup"];
    the same in a description that declares nothing. *)
Lemma fallback_chain_witness :
  ApiGetEndpointEntrySchemaType "ts" shop "createOrder" headers "x-trace"
    (Some P0) = Ok "io-ts"
  ∧ ApiGetEndpointEntrySchemaType "ts" shop "ping" query "echo" (Some P0)
    = Ok "yup"
  ∧ ApiGetEndpointBodySchemaType "ts" shop "ping" (Some P0) = Ok "yup"
  ∧ ApiGetEndpointEntrySchemaType "ts" bare "ping" query "echo" (Some P0)
    = Ok P0
  ∧ ApiGetEndpointBodySchemaType "ts" bare "ping" (Some P0) = Ok P0.
Proof.
  split; [| split; [| split; [| split]]].
  - exact (proj1 (fallback_chain "ts" shop "createOrder" createOrder
                    (TsOpaque "string") P0 eq_refl eq_refl)
             headers {[ "x-trace" := TsOpaque "string" ]} "x-trace"
             eq_refl eq_refl).
  - exact (proj1 (fallback_chain "ts" shop "ping" ping
                    (TsOpaque "string") P0 eq_refl eq_refl)
             query {[ "echo" := TsOpaque "string" ]} "echo" eq_refl eq_refl).
  - exact (proj2 (fallback_chain "ts" shop "ping" ping
                    TsUndefined P0 eq_refl eq_refl) eq_refl).
  - exact (proj1 (fallback_chain "ts" bare "ping" ping
                    (TsOpaque "string") P0 eq_refl eq_refl)
             query {[ "echo" := TsOpaque "string" ]} "echo" eq_refl eq_refl).
  - exact (proj2 (fallback_chain "ts" bare "ping" ping
                    TsUndefined P0 eq_refl eq_refl) eq_refl).
Defined.

(** [shop.ping] declares no body. *)
Lemma body_absent_falls_through_witness :
  ApiGetEndpointBodySchemaType "ts" shop "ping" None
  = ApiGetEndpointSchemaType "ts" shop "ping" None None
  ∧ ApiGetEndpointBodySchemaType "ts" shop "ping" None = Ok "yup"
  ∧ ApiGetEndpointBodySchemaType "ts" shop "ping" None ≠ Err UnknownEntry
  ∧ ApiInferEndpointBody "ts" provider_of projectInput shop "ping" None
    = Ok "yup.input(undefined)".
Proof.
  exact (body_absent_falls_through "ts" provider_of projectInput
           shop "ping" ping None eq_refl eq_refl).
Defined.

(** The bare header [x-trace] of [shop.createOrder] and the absent body of
    [shop.ping]. *)
Lemma schema_absent_pass_through_witness :
  (∃ S,
     ApiGetEndpointEntrySchemaType "ts" shop "createOrder" headers "x-trace"
       None = Ok S
     ∧ ApiInferEndpointInputEntry "ts" provider_of projectInput
         shop "createOrder" headers "x-trace" None None
       = Ok (projectInput (provider_of S) (TsOpaque "string"))
     ∧ ApiInferEndpointOutputEntry "ts" provider_of projectOutput
         shop "createOrder" headers "x-trace" None None
       = Ok (projectOutput (provider_of S) (TsOpaque "string")))
  ∧ (∃ S,
       ApiGetEndpointBodySchemaType "ts" shop "ping" None = Ok S
       ∧ ApiInferEndpointBody "ts" provider_of projectInput shop "ping" None
         = Ok (projectInput (provider_of S) TsUndefined)).
Proof.
  split.
  - refine (proj1 (schema_absent_pass_through "ts" provider_of
                     projectInput projectOutput shop "createOrder" createOrder
                     (TsOpaque "string") None eq_refl _)
              headers {[ "x-trace" := TsOpaque "string" ]} "x-trace"
              eq_refl eq_refl).
    intros Param H. discriminate H.
  - refine (proj2 (schema_absent_pass_through "ts" provider_of
                     projectInput projectOutput shop "ping" ping
                     TsUndefined None eq_refl _) eq_refl).
    intros Param H. discriminate H.
Defined.

(** [D.getUser] has a [params] collection without ["userId"] and no [query]
    collection at all. *)
Lemma unknown_entry_is_signalled_witness :
  (ApiGetEndpointEntrySchemaType "ts" D "getUser" params "userId" (Some P0)
   = Err UnknownEntry
   ∧ ApiInferEndpointInputEntry "ts" provider_of projectInput
       D "getUser" params "userId" (Some P0) None = Err UnknownEntry
   ∧ ApiInferEndpointOutputEntry "ts" provider_of projectOutput
       D "getUser" params "userId" (Some P0) None = Err UnknownEntry)
  ∧ (ApiGetEndpointEntrySchemaType "ts" D "getUser" query "id" (Some P0)
     = Err UnknownEntry
     ∧ ApiInferEndpointInputEntry "ts" provider_of projectInput
         D "getUser" query "id" (Some P0) None = Err UnknownEntry
     ∧ ApiInferEndpointOutputEntry "ts" provider_of projectOutput
         D "getUser" query "id" (Some P0) None = Err UnknownEntry).
Proof.
  split.
  - exact (unknown_entry_is_signalled "ts" provider_of
             projectInput projectOutput D "getUser" getUser params "userId"
             (Some P0) None eq_refl eq_refl).
  - exact (unknown_entry_is_signalled "ts" provider_of
             projectInput projectOutput D "getUser" getUser query "id"
             (Some P0) None eq_refl eq_refl).
Defined.

(** The error scenario of the specification. *)
Lemma unknown_endpoint_is_signalled_witness :
  ApiGetEndpointSchemaType "ts" D "nonexistentEndpoint" (Some P0) None
  = Err UnknownEndpoint
  ∧ ApiGetEndpointBodySchemaType "ts" D "nonexistentEndpoint" (Some P0)
    = Err UnknownEndpoint
  ∧ ApiGetEndpointEntrySchemaType "ts" D "nonexistentEndpoint" params "id"
      (Some P0) = Err UnknownEndpoint.
Proof.
  exact (proj1 (unknown_endpoint_is_signalled "ts" provider_of
                  projectInput projectOutput D "nonexistentEndpoint"
                  params "id" (Some P0) None None eq_refl)).
Defined.

(** The scenario itself: [D], ["getUser"], [params.id], default [P0]. *)
Lemma scenario_getUser_params_id_witness :
  ApiGetEndpointEntrySchemaType "ts" D "getUser" params "id" (Some P0) = Ok P1
  ∧ ApiInferEndpointInputEntry "ts" provider_of projectInput
      D "getUser" params "id" (Some P0) None = Ok "string"
  ∧ ApiInferEndpointInputParam "ts" provider_of projectInput
      D "getUser" "id" (Some P0) = Ok "string".
Proof.
  exact (scenario_getUser_params_id "ts" provider_of projectInput
           D getUser {[ "id" := TsParameter id_param ]} id_param P0 P1
           "string" eq_refl eq_refl eq_refl eq_refl eq_refl eq_refl).
Defined.

(** [bare.ping]: nothing is declared at any level and no default is given;
    the bare query entry [echo] and the absent body are projected by the
    provider of ["ts"]. *)
Lemma omitted_default_is_ApiTypeScriptSchema_witness :
  (ApiGetSchemaType "ts" bare None = "ts"
   ∧ ApiGetEndpointSchemaType "ts" bare "ping" None None = Ok "ts"
   ∧ ApiGetEndpointBodySchemaType "ts" bare "ping" None = Ok "ts"
   ∧ ApiGetEndpointEntrySchemaType "ts" bare "ping" query "echo" None
     = Ok "ts")
  ∧ (ApiInferEndpointBody "ts" provider_of projectInput bare "ping" None
     = Ok "ts.input(undefined)"
     ∧ ApiInferEndpointInputEntry "ts" provider_of projectInput
         bare "ping" query "echo" None None = Ok "ts.input(string)"
     ∧ ApiInferEndpointOutputEntry "ts" provider_of projectOutput
         bare "ping" query "echo" None None = Ok "ts.output(string)")
  ∧ (ApiInferEndpointInputQuery "ts" provider_of projectInput
       bare "ping" "echo" None = Ok "ts.input(string)"
     ∧ ApiInferEndpointOutputQuery "ts" provider_of projectOutput
         bare "ping" "echo" None = Ok "ts.output(string)").
Proof.
  destruct (omitted_default_is_ApiTypeScriptSchema "ts" provider_of
              projectInput projectOutput bare "ping" ping query "echo"
              TsUndefined None None eq_refl eq_refl eq_refl eq_refl)
    as (_ & _ & (HA & HE & HB & _) & (HPB & _) & _).
  destruct (omitted_default_is_ApiTypeScriptSchema "ts" provider_of
              projectInput projectOutput bare "ping" ping query "echo"
              (TsOpaque "string") None None eq_refl eq_refl eq_refl eq_refl)
    as (_ & _ & (_ & _ & _ & HQ) & (_ & HPE) & (_ & HWQ & _)).
  destruct (HPE {[ "echo" := TsOpaque "string" ]} eq_refl eq_refl)
    as [HPin HPout].
  destruct (HWQ {[ "echo" := TsOpaque "string" ]} eq_refl eq_refl)
    as [HWin HWout].
  split; [| split].
  - split; [exact HA | split; [exact HE | split; [exact (HB eq_refl) |]]].
    exact (HQ {[ "echo" := TsOpaque "string" ]} eq_refl eq_refl).
  - split; [exact (HPB eq_refl) | split; [exact HPin | exact HPout]].
  - split; [exact HWin | exact HWout].
Defined.

(** * Further properties of the cascade *)

Section Resolution.
Context {SchemaType Schema Provider : Type}.
Variable ApiTypeScriptSchema : SchemaType.
Variable _provider : SchemaType -> Provider.

#[local] Abbreviation ApiSpec := (ApiSpec SchemaType Schema).
#[local] Abbreviation ApiEndpoint := (ApiEndpoint SchemaType Schema).
#[local] Abbreviation TsType := (TsType SchemaType Schema).
#[local] Abbreviation TS := ApiTypeScriptSchema.

Implicit Types (Api : ApiSpec) (E : ApiEndpoint) (v w : TsType).
Implicit Types (M : gmap string TsType) (d : option SchemaType).
Implicit Types (en n : string) (k : ApiEntry).

Ltac endpoint_known HE :=
  try unfold ApiGetEndpointBody; unfold ApiGetEndpoint;
  rewrite (constraint_keyof_Some _ _ _ _ HE), HE; simpl.

Ltac endpoint_unknown HE :=
  rewrite (constraint_keyof_None _ _ UnknownEndpoint HE); simpl.

Lemma located_Some E k n v :
  entry_collection E k ≫= (.!! n) = Some v →
  ∃ M, entry_collection E k = Some M ∧ M !! n = Some v.
Proof.
  destruct (entry_collection E k) as [M|]; simpl; [| done].
  intros Hn. by exists M.
Qed.

Lemma ApiGetEndpointEntrySchemaType_located Api en E k n d :
  endpoints Api !! en = Some E →
  ApiGetEndpointEntrySchemaType TS Api en k n d
  = match entry_collection E k ≫= (.!! n) with
    | Some v =>
        Ok (default
              (default (ApiGetSchemaType TS Api d) (declared (ep_metadata E)))
              (declared_at v))
    | None => Err UnknownEntry
    end.
Proof.
  intros HE. destruct (entry_collection E k ≫= (.!! n)) as [v|] eqn:Hn.
  - destruct (located_Some E k n v Hn) as (M & HM & HMn).
    by apply (ApiGetEndpointEntrySchemaType_declared TS Api en E k M n v).
  - unfold ApiGetEndpointEntrySchemaType. endpoint_known HE.
    by rewrite (constraint_entry_None E k n UnknownEntry Hn).
Qed.

Lemma ApiInferEndpointInputEntry_located {Shape : Type}
    (InferIn : Provider → TsType → Shape) Api en E k n d (c : option TsType) :
  endpoints Api !! en = Some E →
  ApiInferEndpointInputEntry TS _provider InferIn Api en k n d c
  = match entry_collection E k ≫= (.!! n) with
    | Some v =>
        Ok (InferIn
              (_provider
                 (default
                    (default (ApiGetSchemaType TS Api d)
                             (declared (ep_metadata E)))
                    (declared_at v)))
              (operand_of (default v c)))
    | None => Err UnknownEntry
    end.
Proof.
  intros HE. destruct (entry_collection E k ≫= (.!! n)) as [v|] eqn:Hn.
  - destruct (located_Some E k n v Hn) as (M & HM & HMn).
    by apply (ApiInferEndpointInputEntry_resolved TS _provider InferIn
                Api en E k M n v d c).
  - unfold ApiInferEndpointInputEntry. endpoint_known HE.
    by rewrite (constraint_entry_None E k n UnknownEntry Hn).
Qed.

Lemma ApiInferEndpointOutputEntry_located {Shape : Type}
    (InferOut : Provider → TsType → Shape) Api en E k n d (c : option TsType) :
  endpoints Api !! en = Some E →
  ApiInferEndpointOutputEntry TS _provider InferOut Api en k n d c
  = match entry_collection E k ≫= (.!! n) with
    | Some v =>
        Ok (InferOut
              (_provider
                 (default
                    (default (ApiGetSchemaType TS Api d)
                             (declared (ep_metadata E)))
                    (declared_at v)))
              (operand_of (default v c)))
    | None => Err UnknownEntry
    end.
Proof.
  intros HE. destruct (entry_collection E k ≫= (.!! n)) as [v|] eqn:Hn.
  - destruct (located_Some E k n v Hn) as (M & HM & HMn).
    by apply (ApiInferEndpointOutputEntry_resolved TS _provider InferOut
                Api en E k M n v d c).
  - unfold ApiInferEndpointOutputEntry. endpoint_known HE.
    by rewrite (constraint_entry_None E k n UnknownEntry Hn).
Qed.

(** ** When resolution succeeds *)

(** X1: resolution is rejected only for unknown names.  The endpoint-level
    and the body resolution yield a schema type exactly when the endpoint
    name is a key of the description, whatever the body is; the entry
    resolution exactly when, in addition, the entry name is a key of the
    collection of its kind. *)
Theorem resolution_succeeds_iff_names_are_keys Api en k n d :
  ((∃ S, ApiGetEndpointSchemaType TS Api en d None = Ok S)
   ↔ is_Some (endpoints Api !! en))
  ∧ ((∃ S, ApiGetEndpointBodySchemaType TS Api en d = Ok S)
     ↔ is_Some (endpoints Api !! en))
  ∧ ((∃ S, ApiGetEndpointEntrySchemaType TS Api en k n d = Ok S)
     ↔ ∃ E, endpoints Api !! en = Some E
            ∧ is_Some (entry_collection E k ≫= (.!! n))).
Proof.
  destruct (endpoints Api !! en) as [E|] eqn:HE.
  - rewrite (ApiGetEndpointSchemaType_declared TS Api en E d HE).
    rewrite (ApiGetEndpointBodySchemaType_declared TS Api en E d HE).
    rewrite (ApiGetEndpointEntrySchemaType_located Api en E k n d HE).
    split; [| split].
    + split; eauto.
    + split; eauto.
    + destruct (entry_collection E k ≫= (.!! n)) as [v|] eqn:Hn; split.
      * intros _. exists E. split; [done | by exists v].
      * intros _. by eexists.
      * intros [S HS]. discriminate HS.
      * intros (E' & HE' & [v Hv]). injection HE' as <-. congruence.
  - unfold ApiGetEndpointSchemaType, ApiGetEndpointBodySchemaType,
      ApiGetEndpointEntrySchemaType.
    endpoint_unknown HE.
    split; [| split]; split.
    + intros [S HS]. discriminate HS.
    + intros [E HE']. discriminate HE'.
    + intros [S HS]. discriminate HS.
    + intros [E HE']. discriminate HE'.
    + intros [S HS]. discriminate HS.
    + intros (E & HE' & _). discriminate HE'.
Qed.

(** ** What a resolution can return *)

(** X2: a resolved schema type is never made up, nor taken from elsewhere.
    Whatever the entry resolution returns is the schema type declared by that
    entry, by its endpoint or by the description, or else the default in
    force; whatever the body resolution returns is the schema type declared
    by the body, by its endpoint or by the description, or else the default
    in force. *)
Theorem resolved_schema_type_is_declared_or_default Api en k n d S :
  (ApiGetEndpointEntrySchemaType TS Api en k n d = Ok S →
   ∃ E v, endpoints Api !! en = Some E
          ∧ entry_collection E k ≫= (.!! n) = Some v
          ∧ (declared_at v = Some S
             ∨ declared (ep_metadata E) = Some S
             ∨ declared (api_metadata Api) = Some S
             ∨ S = default TS d))
  ∧ (ApiGetEndpointBodySchemaType TS Api en d = Ok S →
     ∃ E, endpoints Api !! en = Some E
          ∧ (declared_at (ep_body E) = Some S
             ∨ declared (ep_metadata E) = Some S
             ∨ declared (api_metadata Api) = Some S
             ∨ S = default TS d)).
Proof.
  assert (Hcascade : ∀ E (o : option SchemaType),
    default (default (ApiGetSchemaType TS Api d) (declared (ep_metadata E))) o
    = S →
    o = Some S
    ∨ declared (ep_metadata E) = Some S
    ∨ declared (api_metadata Api) = Some S
    ∨ S = default TS d).
  { intros E o. rewrite ApiGetSchemaType_declared.
    destruct o as [P|]; simpl; [intros ->; auto |].
    destruct (declared (ep_metadata E)) as [Pe|]; simpl; [intros ->; auto |].
    destruct (declared (api_metadata Api)) as [Pa|]; simpl; intros ->; auto. }
  destruct (endpoints Api !! en) as [E|] eqn:HE.
  - rewrite (ApiGetEndpointEntrySchemaType_located Api en E k n d HE).
    rewrite (ApiGetEndpointBodySchemaType_declared TS Api en E d HE).
    split.
    + destruct (entry_collection E k ≫= (.!! n)) as [v|] eqn:Hn;
        [| intros Hentry; discriminate Hentry].
      intros Hentry. injection Hentry as Hentry.
      exists E, v. split; [done | split; [done |]].
      exact (Hcascade E _ Hentry).
    + intros Hbody. injection Hbody as Hbody.
      exists E. split; [done |]. exact (Hcascade E _ Hbody).
  - unfold ApiGetEndpointEntrySchemaType, ApiGetEndpointBodySchemaType.
    endpoint_unknown HE. split; intros H; discriminate H.
Qed.

(** ** What a resolution depends on *)

(** X3: resolution reads the declarations and nothing else.  Two locations,
    possibly in different descriptions, endpoints and collections, resolve to
    the same schema type as soon as the three levels above them declare the
    same schema types; in particular metadata that is present but declares no
    schema type counts as absent metadata, and the other collections, the
    schemas and the other endpoints play no part. *)
Theorem resolution_depends_only_on_declarations
    Api Api' en en' E E' v v' d :
  endpoints Api !! en = Some E →
  endpoints Api' !! en' = Some E' →
  declared (api_metadata Api) = declared (api_metadata Api') →
  declared (ep_metadata E) = declared (ep_metadata E') →
  declared_at v = declared_at v' →
  ApiGetSchemaType TS Api d = ApiGetSchemaType TS Api' d
  ∧ ApiGetEndpointSchemaType TS Api en d None
    = ApiGetEndpointSchemaType TS Api' en' d None
  ∧ (ep_body E = v → ep_body E' = v' →
     ApiGetEndpointBodySchemaType TS Api en d
     = ApiGetEndpointBodySchemaType TS Api' en' d)
  ∧ (∀ k k' n n',
       entry_collection E k ≫= (.!! n) = Some v →
       entry_collection E' k' ≫= (.!! n') = Some v' →
       ApiGetEndpointEntrySchemaType TS Api en k n d
       = ApiGetEndpointEntrySchemaType TS Api' en' k' n' d).
Proof.
  intros HE HE' HA HEm Hv.
  assert (HS : ApiGetSchemaType TS Api d = ApiGetSchemaType TS Api' d).
  { by rewrite !ApiGetSchemaType_declared, HA. }
  split; [exact HS | split; [| split]].
  - rewrite (ApiGetEndpointSchemaType_declared TS Api en E d HE).
    rewrite (ApiGetEndpointSchemaType_declared TS Api' en' E' d HE').
    by rewrite HS, HEm.
  - intros Hb Hb'.
    rewrite (ApiGetEndpointBodySchemaType_declared TS Api en E d HE).
    rewrite (ApiGetEndpointBodySchemaType_declared TS Api' en' E' d HE').
    by rewrite Hb, Hb', HS, HEm, Hv.
  - intros k k' n n' Hn Hn'.
    rewrite (ApiGetEndpointEntrySchemaType_located Api en E k n d HE).
    rewrite (ApiGetEndpointEntrySchemaType_located Api' en' E' k' n' d HE').
    by rewrite Hn, Hn', HS, HEm, Hv.
Qed.

(** X4: a declaration at the location or at its endpoint shadows everything
    above it.  Replacing the description's metadata and the default leaves
    the schema type resolved for the location unchanged. *)
Theorem inner_declaration_shadows_description_and_default
    Api en E v m' d d' :
  endpoints Api !! en = Some E →
  is_Some (declared_at v) ∨ is_Some (declared (ep_metadata E)) →
  (ep_body E = v →
   ApiGetEndpointBodySchemaType TS (with_metadata Api m') en d'
   = ApiGetEndpointBodySchemaType TS Api en d)
  ∧ (∀ k n,
       entry_collection E k ≫= (.!! n) = Some v →
       ApiGetEndpointEntrySchemaType TS (with_metadata Api m') en k n d'
       = ApiGetEndpointEntrySchemaType TS Api en k n d).
Proof.
  intros HE Hdecl.
  assert (HE' : endpoints (with_metadata Api m') !! en = Some E) by exact HE.
  assert (Hsame : ∀ S S' : SchemaType,
    default (default S (declared (ep_metadata E))) (declared_at v)
    = default (default S' (declared (ep_metadata E))) (declared_at v)).
  { intros S S'. destruct Hdecl as [[P ->] | [P ->]]; [reflexivity |].
    by destruct (declared_at v). }
  split.
  - intros Hb.
    rewrite (ApiGetEndpointBodySchemaType_declared TS _ en E d' HE').
    rewrite (ApiGetEndpointBodySchemaType_declared TS Api en E d HE).
    rewrite Hb. f_equal. apply Hsame.
  - intros k n Hn.
    rewrite (ApiGetEndpointEntrySchemaType_located _ en E k n d' HE').
    rewrite (ApiGetEndpointEntrySchemaType_located Api en E k n d HE).
    rewrite Hn. f_equal. apply Hsame.
Qed.

(** X5: the default matters exactly when nothing is declared.  At a known
    location, the resolutions under two different defaults differ if and only
    if neither the location, nor its endpoint, nor the description declares a
    schema type. *)
Theorem default_matters_iff_nothing_declared Api en E k n v D D' :
  endpoints Api !! en = Some E →
  entry_collection E k ≫= (.!! n) = Some v →
  D ≠ D' →
  ApiGetEndpointEntrySchemaType TS Api en k n (Some D)
  ≠ ApiGetEndpointEntrySchemaType TS Api en k n (Some D')
  ↔ declared_at v = None
    ∧ declared (ep_metadata E) = None
    ∧ declared (api_metadata Api) = None.
Proof.
  intros HE Hn HD.
  rewrite !(ApiGetEndpointEntrySchemaType_located Api en E k n _ HE), Hn.
  rewrite !ApiGetSchemaType_declared. simpl.
  destruct (declared_at v) as [P|], (declared (ep_metadata E)) as [Pe|],
    (declared (api_metadata Api)) as [Pa|]; simpl; split;
    try (intros Hne; by destruct Hne);
    try (intros (H1 & H2 & H3); discriminate).
  - done.
  - intros _ Heq. injection Heq as Heq. by apply HD.
Qed.

(** X6: a location that declares nothing resolves as its endpoint does.
    For every entry and every body without a declaration of its own (bare,
    absent, or a parameter whose metadata declares no schema type) the
    resolution is the endpoint-level resolution, so that all such locations
    of one endpoint share one schema type. *)
Theorem undeclared_location_resolves_as_its_endpoint Api en E v d :
  endpoints Api !! en = Some E →
  declared_at v = None →
  (ep_body E = v →
   ApiGetEndpointBodySchemaType TS Api en d
   = ApiGetEndpointSchemaType TS Api en d None)
  ∧ (∀ k n,
       entry_collection E k ≫= (.!! n) = Some v →
       ApiGetEndpointEntrySchemaType TS Api en k n d
       = ApiGetEndpointSchemaType TS Api en d None).
Proof.
  intros HE Hv.
  rewrite (ApiGetEndpointSchemaType_declared TS Api en E d HE).
  split.
  - intros Hb. rewrite (ApiGetEndpointBodySchemaType_declared TS Api en E d HE).
    by rewrite Hb, Hv.
  - intros k n Hn.
    rewrite (ApiGetEndpointEntrySchemaType_located Api en E k n d HE).
    by rewrite Hn, Hv.
Qed.

(** X7: an explicit [ComputedEndpoint] replaces the endpoint whose metadata
    is consulted, but not the check of the endpoint name.  For a known name
    the result is read off the supplied endpoint, and supplying the endpoint
    the description binds to the name is the same as supplying none. *)
Theorem computed_endpoint_is_the_one_consulted Api en E E' d :
  endpoints Api !! en = Some E →
  ApiGetEndpointSchemaType TS Api en d (Some E')
  = Ok (default (ApiGetSchemaType TS Api d) (declared (ep_metadata E')))
  ∧ ApiGetEndpointSchemaType TS Api en d (Some E)
    = ApiGetEndpointSchemaType TS Api en d None.
Proof.
  intros HE.
  assert (Hgiven : ∀ E0,
    ApiGetEndpointSchemaType TS Api en d (Some E0)
    = Ok (default (ApiGetSchemaType TS Api d) (declared (ep_metadata E0)))).
  { intros E0. unfold ApiGetEndpointSchemaType.
    rewrite (constraint_keyof_Some _ _ _ _ HE). simpl.
    unfold declared. destruct (ep_metadata E0) as [[[Ty|]]|]; reflexivity. }
  split; [apply Hgiven |].
  by rewrite Hgiven, (ApiGetEndpointSchemaType_declared TS Api en E d HE).
Qed.

(** ** Editing the description *)

(** X8: endpoints do not interfere.  Binding another endpoint name, or
    removing one, changes no resolution and no projection at the name [en],
    be it accepted or rejected. *)
Theorem other_endpoints_do_not_interfere {Shape : Type}
    (InferIn InferOut : Provider → TsType → Shape)
    Api en en' E' k n d (c : option TsType) :
  en ≠ en' →
  ∀ Api', Api' = with_endpoint Api en' E' ∨ Api' = without_endpoint Api en' →
  ApiGetEndpointSchemaType TS Api' en d None
  = ApiGetEndpointSchemaType TS Api en d None
  ∧ ApiGetEndpointBodySchemaType TS Api' en d
    = ApiGetEndpointBodySchemaType TS Api en d
  ∧ ApiGetEndpointEntrySchemaType TS Api' en k n d
    = ApiGetEndpointEntrySchemaType TS Api en k n d
  ∧ ApiInferEndpointBody TS _provider InferIn Api' en d
    = ApiInferEndpointBody TS _provider InferIn Api en d
  ∧ ApiInferEndpointInputEntry TS _provider InferIn Api' en k n d c
    = ApiInferEndpointInputEntry TS _provider InferIn Api en k n d c
  ∧ ApiInferEndpointOutputEntry TS _provider InferOut Api' en k n d c
    = ApiInferEndpointOutputEntry TS _provider InferOut Api en k n d c.
Proof.
  intros Hne Api' HApi'.
  assert (Hlook : endpoints Api' !! en = endpoints Api !! en).
  { destruct HApi' as [-> | ->]; simpl.
    - by apply lookup_insert_ne.
    - by apply lookup_delete_ne. }
  assert (Hmeta : ∀ d0, ApiGetSchemaType TS Api' d0 = ApiGetSchemaType TS Api d0).
  { intros d0. by destruct HApi' as [-> | ->]. }
  destruct (endpoints Api !! en) as [E|] eqn:HE.
  - rewrite (ApiGetEndpointSchemaType_declared TS Api' en E d Hlook).
    rewrite (ApiGetEndpointSchemaType_declared TS Api en E d HE).
    rewrite (ApiGetEndpointBodySchemaType_declared TS Api' en E d Hlook).
    rewrite (ApiGetEndpointBodySchemaType_declared TS Api en E d HE).
    rewrite (ApiGetEndpointEntrySchemaType_located Api' en E k n d Hlook).
    rewrite (ApiGetEndpointEntrySchemaType_located Api en E k n d HE).
    rewrite (ApiInferEndpointBody_resolved TS _provider InferIn Api' en E d Hlook).
    rewrite (ApiInferEndpointBody_resolved TS _provider InferIn Api en E d HE).
    rewrite (ApiInferEndpointInputEntry_located InferIn Api' en E k n d c Hlook).
    rewrite (ApiInferEndpointInputEntry_located InferIn Api en E k n d c HE).
    rewrite (ApiInferEndpointOutputEntry_located InferOut Api' en E k n d c Hlook).
    rewrite (ApiInferEndpointOutputEntry_located InferOut Api en E k n d c HE).
    rewrite Hmeta. done.
  - unfold ApiInferEndpointBody, ApiInferEndpointInputEntry,
      ApiInferEndpointOutputEntry, ApiGetEndpointEntrySchemaType,
      ApiGetEndpointBodySchemaType, ApiGetEndpointSchemaType.
    rewrite (constraint_keyof_None _ _ UnknownEndpoint Hlook).
    rewrite (constraint_keyof_None _ _ UnknownEndpoint HE).
    done.
Qed.

(** X9: binding and removing an endpoint.  Once [E] is bound to a name, the
    endpoint-level and the body resolution at that name succeed and read
    [E]'s declarations over the description's; once the name is removed they
    are rejected as [UnknownEndpoint], whatever was bound before. *)
Theorem bound_endpoint_resolves_removed_endpoint_is_unknown Api en E d :
  (ApiGetEndpointSchemaType TS (with_endpoint Api en E) en d None
   = Ok (default (ApiGetSchemaType TS Api d) (declared (ep_metadata E)))
   ∧ ApiGetEndpointBodySchemaType TS (with_endpoint Api en E) en d
     = Ok (default
             (default (ApiGetSchemaType TS Api d) (declared (ep_metadata E)))
             (declared_at (ep_body E))))
  ∧ (ApiGetEndpointSchemaType TS (without_endpoint Api en) en d None
     = Err UnknownEndpoint
     ∧ ApiGetEndpointBodySchemaType TS (without_endpoint Api en) en d
       = Err UnknownEndpoint).
Proof.
  assert (HE : endpoints (with_endpoint Api en E) !! en = Some E).
  { simpl. apply lookup_insert_eq. }
  assert (Hgone : endpoints (without_endpoint Api en) !! en = None).
  { simpl. apply lookup_delete_eq. }
  split; split.
  - by rewrite (ApiGetEndpointSchemaType_declared TS _ en E d HE).
  - by rewrite (ApiGetEndpointBodySchemaType_declared TS _ en E d HE).
  - unfold ApiGetEndpointSchemaType. by endpoint_unknown Hgone.
  - unfold ApiGetEndpointBodySchemaType. by endpoint_unknown Hgone.
Qed.

(** ** How the projections are applied *)

(** X12: a parameter is projected through its schema.  Where the entry (or
    the body) is a parameter, the projection of the resolved provider is
    applied to the parameter's [schema], not to the parameter and not to its
    metadata. *)
Theorem parameter_is_projected_through_its_schema {Shape : Type}
    (InferIn InferOut : Provider → TsType → Shape) Api en E Param d :
  endpoints Api !! en = Some E →
  (ep_body E = TsParameter Param →
   ∃ S, ApiGetEndpointBodySchemaType TS Api en d = Ok S
        ∧ ApiInferEndpointBody TS _provider InferIn Api en d
          = Ok (InferIn (_provider S) (TsOpaque (schema Param))))
  ∧ (∀ k n,
       entry_collection E k ≫= (.!! n) = Some (TsParameter Param) →
       ∃ S, ApiGetEndpointEntrySchemaType TS Api en k n d = Ok S
            ∧ ApiInferEndpointInputEntry TS _provider InferIn Api en k n d None
              = Ok (InferIn (_provider S) (TsOpaque (schema Param)))
            ∧ ApiInferEndpointOutputEntry TS _provider InferOut
                Api en k n d None
              = Ok (InferOut (_provider S) (TsOpaque (schema Param)))).
Proof.
  intros HE. split.
  - intros Hb. eexists. split.
    + by apply (ApiGetEndpointBodySchemaType_declared TS Api en E d).
    + rewrite (ApiInferEndpointBody_resolved TS _provider InferIn Api en E d HE).
      by rewrite Hb.
  - intros k n Hn. eexists. split; [| split].
    + rewrite (ApiGetEndpointEntrySchemaType_located Api en E k n d HE).
      by rewrite Hn.
    + rewrite (ApiInferEndpointInputEntry_located InferIn Api en E k n d None HE).
      by rewrite Hn.
    + rewrite (ApiInferEndpointOutputEntry_located
                 InferOut Api en E k n d None HE).
      by rewrite Hn.
Qed.

(** X13: the body projection follows the body resolution.  Although the
    source resolves the provider of a body that is not a data parameter with
    [ApiGetEndpointSchemaType] directly, the body projection always equals:
    resolve with [ApiGetEndpointBodySchemaType], then project the body's
    operand with the resolved provider; both are rejected together. *)
Theorem body_projection_follows_body_resolution {Shape : Type}
    (InferIn : Provider → TsType → Shape) Api en d :
  ApiInferEndpointBody TS _provider InferIn Api en d
  = (Body ← ApiGetEndpointBody Api en;
     S ← ApiGetEndpointBodySchemaType TS Api en d;
     Ok (InferIn (_provider S) (operand_of Body))).
Proof.
  destruct (endpoints Api !! en) as [E|] eqn:HE.
  - rewrite (ApiInferEndpointBody_resolved TS _provider InferIn Api en E d HE).
    rewrite (ApiGetEndpointBodySchemaType_declared TS Api en E d HE).
    unfold ApiGetEndpointBody, ApiGetEndpoint. by rewrite HE.
  - unfold ApiInferEndpointBody. endpoint_unknown HE.
    unfold ApiGetEndpointBody, ApiGetEndpoint. by rewrite HE.
Qed.

(** X14: an explicit [ComputedEntryParam] replaces the operand and nothing
    else.  The provider stays the one resolved for the entry the description
    holds at the location, so a declaration carried by the supplied type is
    not consulted; the entry name is still checked; and supplying the entry
    itself is the same as supplying nothing. *)
Theorem computed_entry_param_replaces_the_operand_only {Shape : Type}
    (InferIn InferOut : Provider → TsType → Shape) Api en E k n v w d :
  endpoints Api !! en = Some E →
  entry_collection E k ≫= (.!! n) = Some v →
  (∃ S, ApiGetEndpointEntrySchemaType TS Api en k n d = Ok S
        ∧ ApiInferEndpointInputEntry TS _provider InferIn Api en k n d (Some w)
          = Ok (InferIn (_provider S) (operand_of w))
        ∧ ApiInferEndpointOutputEntry TS _provider InferOut
            Api en k n d (Some w)
          = Ok (InferOut (_provider S) (operand_of w)))
  ∧ ApiInferEndpointInputEntry TS _provider InferIn Api en k n d (Some v)
    = ApiInferEndpointInputEntry TS _provider InferIn Api en k n d None
  ∧ ApiInferEndpointOutputEntry TS _provider InferOut Api en k n d (Some v)
    = ApiInferEndpointOutputEntry TS _provider InferOut Api en k n d None.
Proof.
  intros HE Hn.
  rewrite !(ApiInferEndpointInputEntry_located InferIn Api en E k n d _ HE).
  rewrite !(ApiInferEndpointOutputEntry_located InferOut Api en E k n d _ HE).
  rewrite (ApiGetEndpointEntrySchemaType_located Api en E k n d HE).
  rewrite Hn. simpl. split; [eexists; split; [reflexivity |] |]; done.
Qed.

(** ** The per-kind operations *)

(** X15: each per-kind operation reads its own collection.  On a known
    endpoint, the ten operations for path parameters, query parameters,
    headers, cookies and responses project the entry bound to the name in the
    collection of that kind with the provider resolved for it, and are
    rejected as [UnknownEntry] when that collection is absent or lacks the
    name; the other collections and the body are not looked at. *)
Theorem per_kind_operations_read_their_own_collection {Shape : Type}
    (InferIn InferOut : Provider → TsType → Shape) Api en E n d :
  endpoints Api !! en = Some E →
  (ApiInferEndpointInputParam TS _provider InferIn Api en n d
   = entry_outcome TS _provider InferIn Api E d (ep_params E ≫= (.!! n))
   ∧ ApiInferEndpointInputQuery TS _provider InferIn Api en n d
     = entry_outcome TS _provider InferIn Api E d (ep_query E ≫= (.!! n))
   ∧ ApiInferEndpointInputHeader TS _provider InferIn Api en n d
     = entry_outcome TS _provider InferIn Api E d (ep_headers E ≫= (.!! n))
   ∧ ApiInferEndpointInputCookie TS _provider InferIn Api en n d
     = entry_outcome TS _provider InferIn Api E d (ep_cookies E ≫= (.!! n))
   ∧ ApiInferEndpointInputResponse TS _provider InferIn Api en n d
     = entry_outcome TS _provider InferIn Api E d (ep_responses E ≫= (.!! n)))
  ∧ (ApiInferEndpointOutputParam TS _provider InferOut Api en n d
     = entry_outcome TS _provider InferOut Api E d (ep_params E ≫= (.!! n))
     ∧ ApiInferEndpointOutputQuery TS _provider InferOut Api en n d
       = entry_outcome TS _provider InferOut Api E d (ep_query E ≫= (.!! n))
     ∧ ApiInferEndpointOutputHeader TS _provider InferOut Api en n d
       = entry_outcome TS _provider InferOut Api E d (ep_headers E ≫= (.!! n))
     ∧ ApiInferEndpointOutputCookie TS _provider InferOut Api en n d
       = entry_outcome TS _provider InferOut Api E d (ep_cookies E ≫= (.!! n))
     ∧ ApiInferEndpointOutputResponse TS _provider InferOut Api en n d
       = entry_outcome TS _provider InferOut Api E d
           (ep_responses E ≫= (.!! n))).
Proof.
  intros HE.
  assert (HIn : ∀ k,
    ApiInferEndpointInputEntry TS _provider InferIn Api en k n
      (Some (default TS d)) None
    = entry_outcome TS _provider InferIn Api E d
        (entry_collection E k ≫= (.!! n))).
  { intros k.
    rewrite (ApiInferEndpointInputEntry_located InferIn Api en E k n _ None HE).
    by destruct (entry_collection E k ≫= (.!! n)). }
  assert (HOut : ∀ k,
    ApiInferEndpointOutputEntry TS _provider InferOut Api en k n
      (Some (default TS d)) None
    = entry_outcome TS _provider InferOut Api E d
        (entry_collection E k ≫= (.!! n))).
  { intros k.
    rewrite (ApiInferEndpointOutputEntry_located InferOut Api en E k n _ None HE).
    by destruct (entry_collection E k ≫= (.!! n)). }
  split.
  - split; [apply (HIn params) |].
    split; [apply (HIn query) |].
    split; [apply (HIn headers) |].
    split; [apply (HIn cookies) | apply (HIn responses)].
  - split; [apply (HOut params) |].
    split; [apply (HOut query) |].
    split; [apply (HOut headers) |].
    split; [apply (HOut cookies) | apply (HOut responses)].
Qed.

End Resolution.

(** * The further properties on the concrete descriptions *)

Import Variants.

(** [shop.createOrder]: the query parameter [sku] resolves to the ["zod"] it
    declares, the bare header [x-trace] to the endpoint's ["io-ts"]. *)
Lemma resolved_schema_type_is_declared_or_default_witness :
  (∃ E v, endpoints shop !! "createOrder" = Some E
          ∧ entry_collection E query ≫= (.!! "sku") = Some v
          ∧ (declared_at v = Some "zod"
             ∨ declared (ep_metadata E) = Some "zod"
             ∨ declared (api_metadata shop) = Some "zod"
             ∨ "zod" = default "ts" (Some P0)))
  ∧ (∃ E v, endpoints shop !! "createOrder" = Some E
            ∧ entry_collection E headers ≫= (.!! "x-trace") = Some v
            ∧ (declared_at v = Some "io-ts"
               ∨ declared (ep_metadata E) = Some "io-ts"
               ∨ declared (api_metadata shop) = Some "io-ts"
               ∨ "io-ts" = default "ts" (Some P0)))
  ∧ (∃ E, endpoints shop !! "createOrder" = Some E
          ∧ (declared_at (ep_body E) = Some "zod"
             ∨ declared (ep_metadata E) = Some "zod"
             ∨ declared (api_metadata shop) = Some "zod"
             ∨ "zod" = default "ts" (Some P0))).
Proof.
  split; [| split].
  - exact (proj1 (resolved_schema_type_is_declared_or_default "ts"
                    shop "createOrder" query "sku" (Some P0) "zod") eq_refl).
  - exact (proj1 (resolved_schema_type_is_declared_or_default "ts"
                    shop "createOrder" headers "x-trace" (Some P0) "io-ts")
             eq_refl).
  - exact (proj2 (resolved_schema_type_is_declared_or_default "ts"
                    shop "createOrder" query "sku" (Some P0) "zod") eq_refl).
Defined.

(** [bare.ping] has no metadata; [bare_described.health] has metadata without
    a schema type at every level. *)
Lemma resolution_depends_only_on_declarations_witness :
  ApiGetSchemaType "ts" bare (Some P0)
  = ApiGetSchemaType "ts" bare_described (Some P0)
  ∧ ApiGetEndpointSchemaType "ts" bare "ping" (Some P0) None
    = ApiGetEndpointSchemaType "ts" bare_described "health" (Some P0) None
  ∧ ApiGetEndpointEntrySchemaType "ts" bare "ping" query "echo" (Some P0)
    = ApiGetEndpointEntrySchemaType "ts" bare_described "health" headers "echo"
        (Some P0).
Proof.
  destruct (resolution_depends_only_on_declarations "ts"
              bare bare_described "ping" "health" ping ping_described
              (TsOpaque "string")
              (TsParameter
                 {| param_metadata := no_schemaType; schema := "string" |})
              (Some P0) eq_refl eq_refl eq_refl eq_refl eq_refl)
    as (HA & HE & _ & Hentry).
  split; [exact HA | split; [exact HE |]].
  exact (Hentry query headers "echo" "echo" eq_refl eq_refl).
Defined.

(** [shop.createOrder] declares ["io-ts"] and its [sku] declares ["zod"]:
    dropping the description's ["yup"] and the default changes nothing. *)
Lemma inner_declaration_shadows_description_and_default_witness :
  ApiGetEndpointEntrySchemaType "ts" (with_metadata shop None) "createOrder"
    query "sku" None
  = ApiGetEndpointEntrySchemaType "ts" shop "createOrder" query "sku" (Some P0)
  ∧ ApiGetEndpointEntrySchemaType "ts" (with_metadata shop None) "createOrder"
      headers "x-trace" None
    = ApiGetEndpointEntrySchemaType "ts" shop "createOrder" headers "x-trace"
        (Some P0).
Proof.
  split.
  - exact (proj2 (inner_declaration_shadows_description_and_default "ts"
                    shop "createOrder" createOrder (TsParameter sku_param)
                    None (Some P0) None eq_refl
                    (or_introl (ex_intro _ "zod" eq_refl)))
             query "sku" eq_refl).
  - exact (proj2 (inner_declaration_shadows_description_and_default "ts"
                    shop "createOrder" createOrder (TsOpaque "string")
                    None (Some P0) None eq_refl
                    (or_intror (ex_intro _ "io-ts" eq_refl)))
             headers "x-trace" eq_refl).
Defined.

(** In [bare] nothing is declared above [ping.query.echo]. *)
Lemma default_matters_iff_nothing_declared_witness :
  ApiGetEndpointEntrySchemaType "ts" bare "ping" query "echo" (Some P0)
  ≠ ApiGetEndpointEntrySchemaType "ts" bare "ping" query "echo" (Some P1).
Proof.
  assert (Hne : P0 ≠ P1) by discriminate.
  exact (proj2 (default_matters_iff_nothing_declared "ts" bare "ping" ping
                  query "echo" (TsOpaque "string") P0 P1 eq_refl eq_refl Hne)
           (conj eq_refl (conj eq_refl eq_refl))).
Defined.

(** The bare entry and the absent body of [shop.ping]. *)
Lemma undeclared_location_resolves_as_its_endpoint_witness :
  ApiGetEndpointBodySchemaType "ts" shop "ping" (Some P0)
  = ApiGetEndpointSchemaType "ts" shop "ping" (Some P0) None
  ∧ ApiGetEndpointEntrySchemaType "ts" shop "ping" query "echo" (Some P0)
    = ApiGetEndpointSchemaType "ts" shop "ping" (Some P0) None.
Proof.
  split.
  - exact (proj1 (undeclared_location_resolves_as_its_endpoint "ts"
                    shop "ping" ping TsUndefined (Some P0) eq_refl eq_refl)
             eq_refl).
  - exact (proj2 (undeclared_location_resolves_as_its_endpoint "ts"
                    shop "ping" ping (TsOpaque "string") (Some P0)
                    eq_refl eq_refl)
             query "echo" eq_refl).
Defined.

(** Resolving at the name ["ping"] with [createOrder] supplied as the computed
    endpoint reads [createOrder]'s ["io-ts"]. *)
Lemma computed_endpoint_is_the_one_consulted_witness :
  ApiGetEndpointSchemaType "ts" shop "ping" (Some P0) (Some createOrder)
  = Ok "io-ts"
  ∧ ApiGetEndpointSchemaType "ts" shop "ping" (Some P0) (Some ping)
    = ApiGetEndpointSchemaType "ts" shop "ping" (Some P0) None.
Proof.
  exact (computed_endpoint_is_the_one_consulted "ts" shop "ping" ping
           createOrder (Some P0) eq_refl).
Defined.

(** Adding [ping] to [D] leaves [D.getUser.params.id] as it was. *)
Lemma other_endpoints_do_not_interfere_witness :
  ApiGetEndpointEntrySchemaType "ts" (with_endpoint D "ping" ping) "getUser"
    params "id" (Some P0)
  = ApiGetEndpointEntrySchemaType "ts" D "getUser" params "id" (Some P0)
  ∧ ApiInferEndpointInputEntry "ts" provider_of projectInput
      (with_endpoint D "ping" ping) "getUser" params "id" (Some P0) None
    = ApiInferEndpointInputEntry "ts" provider_of projectInput
        D "getUser" params "id" (Some P0) None.
Proof.
  assert (Hne : "getUser" ≠ "ping") by discriminate.
  destruct (other_endpoints_do_not_interfere "ts" provider_of
              projectInput projectOutput D "getUser" "ping" ping
              params "id" (Some P0) None Hne
              (with_endpoint D "ping" ping) (or_introl eq_refl))
    as (_ & _ & Hentry & _ & Hin & _).
  split; [exact Hentry | exact Hin].
Defined.

(** The parameter [sku] and the body of [shop.createOrder]. *)
Lemma parameter_is_projected_through_its_schema_witness :
  (∃ S, ApiGetEndpointBodySchemaType "ts" shop "createOrder" None = Ok S
        ∧ ApiInferEndpointBody "ts" provider_of projectInput
            shop "createOrder" None
          = Ok (projectInput (provider_of S) (TsOpaque "order")))
  ∧ (∃ S, ApiGetEndpointEntrySchemaType "ts" shop "createOrder" query "sku"
            None = Ok S
          ∧ ApiInferEndpointInputEntry "ts" provider_of projectInput
              shop "createOrder" query "sku" None None
            = Ok (projectInput (provider_of S) (TsOpaque "sku"))
          ∧ ApiInferEndpointOutputEntry "ts" provider_of projectOutput
              shop "createOrder" query "sku" None None
            = Ok (projectOutput (provider_of S) (TsOpaque "sku"))).
Proof.
  split.
  - exact (proj1 (parameter_is_projected_through_its_schema "ts" provider_of
                    projectInput projectOutput shop "createOrder" createOrder
                    order_body None eq_refl) eq_refl).
  - exact (proj2 (parameter_is_projected_through_its_schema "ts" provider_of
                    projectInput projectOutput shop "createOrder" createOrder
                    sku_param None eq_refl) query "sku" eq_refl).
Defined.

(** The bare header [x-trace] of [shop.createOrder], projected with the
    parameter [sku] (which declares ["zod"]) supplied as the computed entry:
    the provider remains the endpoint's ["io-ts"]. *)
Lemma computed_entry_param_replaces_the_operand_only_witness :
  ApiInferEndpointInputEntry "ts" provider_of projectInput
    shop "createOrder" headers "x-trace" None (Some (TsParameter sku_param))
  = Ok "io-ts.input(sku)"
  ∧ ApiInferEndpointOutputEntry "ts" provider_of projectOutput
      shop "createOrder" headers "x-trace" None (Some (TsParameter sku_param))
    = Ok "io-ts.output(sku)".
Proof.
  destruct (computed_entry_param_replaces_the_operand_only "ts" provider_of
              projectInput projectOutput shop "createOrder" createOrder
              headers "x-trace" (TsOpaque "string") (TsParameter sku_param)
              None eq_refl eq_refl)
    as [(S & HS & Hin & Hout) _].
  injection HS as <-.
  split; [exact Hin | exact Hout].
Defined.

(** [D.getUser]: a path parameter, a bare response, and no query
    collection. *)
Lemma per_kind_operations_read_their_own_collection_witness :
  ApiInferEndpointInputParam "ts" provider_of projectInput
    D "getUser" "id" (Some P0) = Ok "string"
  ∧ ApiInferEndpointInputQuery "ts" provider_of projectInput
      D "getUser" "id" (Some P0) = Err UnknownEntry
  ∧ ApiInferEndpointOutputParam "ts" provider_of projectOutput
      D "getUser" "id" (Some P0) = Ok "P1.output(string)".
Proof.
  destruct (per_kind_operations_read_their_own_collection "ts" provider_of
              projectInput projectOutput D "getUser" getUser "id" (Some P0)
              eq_refl)
    as [(Hparam & Hquery & _) (Hout & _)].
  split; [exact Hparam | split; [exact Hquery | exact Hout]].
Defined.
